(** * ghidra_mcp_server: the tool registry, the dispatcher and the four handlers

    A shallow embedding of [src/ghidra_mcp_server.py].

    - Python [str] values are [string]s; one [ascii] stands for one character
      with a code point below 256.
    - The handlers talk to the outside world through [pathlib] and
      [subprocess].  Those libraries are not part of the repository: they are
      the fields of a [Host] record, each effectful one a transition on an
      arbitrary world type [W].  Every attempt to start an external command is
      logged in the [spawned] component of the state.
    - A Python exception is a value of [exn]; a computation either returns or
      raises ([outcome]).  Only subclasses of [Exception] are modelled, which
      is what [except Exception] in [call_tool] ranges over.
    - Where a [try] block appends to the local list [results] between calls
      that can raise, the list is threaded as a store ([Block]), so that the
      [except] clause sees what was appended before the failure.
    - The message of an unbound local follows the wording of CPython 3.11
      and later.  The message of the [TypeError] that [Path(...)] raises
      differs between the versions of [pathlib]; it is a field of the
      host. *)

From Stdlib Require Import ZArith NArith String Ascii List Lia.
From stdpp Require Import gmap strings list pretty.

Open Scope string_scope.
Open Scope list_scope.

(** ** Python string primitives used by the handlers *)

Module Py.

(** The newline character, written ['\n'] in the source. *)
Definition nl : string := String "010"%char "".

(** [str.isspace] on the characters below 256. *)
Definition is_space (c : ascii) : bool :=
  let n := nat_of_ascii c in
  ((9 <=? n)%nat && (n <=? 13)%nat) || ((28 <=? n)%nat && (n <=? 32)%nat)
  || (n =? 133)%nat || (n =? 160)%nat.

Fixpoint lstrip (s : string) : string :=
  match s with
  | String c s' => if is_space c then lstrip s' else s
  | EmptyString => EmptyString
  end.

Fixpoint rstrip (s : string) : string :=
  match s with
  | EmptyString => EmptyString
  | String c s' =>
      match rstrip s' with
      | EmptyString => if is_space c then EmptyString else String c EmptyString
      | r => String c r
      end
  end.

(** [s.strip()] *)
Definition strip (s : string) : string := rstrip (lstrip s).

(** [s.split('\n')]: never empty, [''.split('\n') == ['']]. *)
Fixpoint split_nl (s : string) : list string :=
  match s with
  | EmptyString => [EmptyString]
  | String c s' =>
      if Ascii.eqb c "010"%char then EmptyString :: split_nl s'
      else match split_nl s' with
           | h :: t => String c h :: t
           | [] => [String c EmptyString]
           end
  end.

(** ['\n'.join(l)] *)
Definition join_nl (l : list string) : string := String.concat nl l.

(** [needle in hay] on strings. *)
Fixpoint contains (needle hay : string) : bool :=
  String.prefix needle hay
  || match hay with
     | EmptyString => false
     | String _ hay' => contains needle hay'
     end.

(** [s[-3:]] *)
Definition last3 (s : string) : string :=
  String.substring (String.length s - 3) 3 s.

(** [str(n)] for an [int]. *)
Definition str_int (z : Z) : string := pretty z.

(** [f"{n:,}"]: decimal digits in groups of three. *)
Fixpoint group3 (k : nat) (rev_digits : string) : string :=
  match rev_digits with
  | EmptyString => EmptyString
  | String c s' =>
      if (k =? 3)%nat then String "," (String c (group3 1 s'))
      else String c (group3 (S k) s')
  end.

Definition format_thousands (n : N) : string :=
  String.rev (group3 0 (String.rev (pretty n))).

(** Nearest integer to [num / den], ties to the even one. *)
Definition round_half_even (num den : N) : N :=
  let q := (num / den)%N in
  let r := (num mod den)%N in
  if (2 * r <? den)%N then q
  else if (den <? 2 * r)%N then (q + 1)%N
  else if N.even q then q else (q + 1)%N.

(** The double nearest to the integer [n] (an integer again): 53 bits of
    mantissa, ties to even.  A file size is far below the largest double. *)
Definition to_double (n : N) : N :=
  if (N.log2 n <? 53)%N then n
  else let k := (N.log2 n - 52)%N in
       (round_half_even n (2 ^ k) * 2 ^ k)%N.

Definition two_digits (n : N) : string :=
  if (n <? 10)%N then "0" +:+ pretty n else pretty n.

(** [f"{n / 1024:.2f}"]: true division is correctly rounded, and dividing
    a double by 1024 is exact; the format rounds the exact value of the
    double to two decimals, ties to even. *)
Definition format_kb (n : N) : string :=
  let h := round_half_even (to_double n * 100) 1024 in
  pretty (h / 100)%N +:+ "." +:+ two_digits (h mod 100)%N.

Fixpoint oct_digits (fuel : nat) (n : N) (acc : string) : string :=
  match fuel with
  | O => acc
  | S fuel' =>
      let acc' := pretty (n mod 8)%N +:+ acc in
      if (n <? 8)%N then acc' else oct_digits fuel' (n / 8)%N acc'
  end.

(** [oct(n)] for [n >= 0]. *)
Definition oct (n : N) : string :=
  "0o" +:+ oct_digits (S (N.to_nat (N.log2 n))) n "".

End Py.

(** ** The lines a tool prints *)

(** The output of a tool that prints the lines [ls], each one ended by a
    newline. *)
Fixpoint unlines (ls : list string) : string :=
  match ls with
  | [] => EmptyString
  | l :: ls' => l +:+ Py.nl +:+ unlines ls'
  end.

Fixpoint no_newline (l : string) : bool :=
  match l with
  | EmptyString => true
  | String c l' => negb (Ascii.eqb c "010"%char) && no_newline l'
  end.

Definition starts_with_nonspace (l : string) : bool :=
  match l with
  | EmptyString => false
  | String c _ => negb (Py.is_space c)
  end.

Fixpoint ends_with_nonspace (l : string) : bool :=
  match l with
  | EmptyString => false
  | String c EmptyString => negb (Py.is_space c)
  | String _ l' => ends_with_nonspace l'
  end.

(** ** Exceptions and values *)

(** The exception classes the program can meet.  [CalledProcessError],
    [FileNotFoundError] and [OtherException] come out of [pathlib] and
    [subprocess] and carry the text [str(e)] gives for them. *)
Inductive exn :=
  | KeyError (key : string)
  | TypeError (msg : string)
  | UnboundLocalError (var : string)
  | CalledProcessError (detail : string)
  | FileNotFoundError (detail : string)
  | OtherException (detail : string).

(** [str(e)].  A [KeyError] prints the [repr] of its key; the only key this
    program looks up with [arguments[...]] is the literal ['file_path']. *)
Definition str_exn (e : exn) : string :=
  match e with
  | KeyError key => "'" +:+ key +:+ "'"
  | TypeError msg => msg
  | UnboundLocalError var =>
      "cannot access local variable '" +:+ var
      +:+ "' where it is not associated with a value"
  | CalledProcessError detail => detail
  | FileNotFoundError detail => detail
  | OtherException detail => detail
  end.

Definition is_CalledProcessError (e : exn) : bool :=
  match e with CalledProcessError _ => true | _ => false end.

Definition is_FileNotFoundError (e : exn) : bool :=
  match e with FileNotFoundError _ => true | _ => false end.

(** [except Exception]: every modelled class derives from [Exception]. *)
Definition is_Exception (e : exn) : bool := true.

(** The values an argument mapping decoded from JSON can hold.  The program
    observes a value only through [Path(v)] and [str(v)], so numbers with a
    fraction, lists and nested mappings are kept as their type name and
    their [str] text. *)
Inductive value :=
  | VStr (s : string)
  | VInt (n : Z)
  | VBool (b : bool)
  | VNone
  | VOther (type_name : string) (str_text : string).

Definition type_name_of (v : value) : string :=
  match v with
  | VStr _ => "str"
  | VInt _ => "int"
  | VBool _ => "bool"
  | VNone => "NoneType"
  | VOther t _ => t
  end.

(** [str(v)] *)
Definition str_value (v : value) : string :=
  match v with
  | VStr s => s
  | VInt n => Py.str_int n
  | VBool true => "True"
  | VBool false => "False"
  | VNone => "None"
  | VOther _ t => t
  end.

Inductive outcome (A : Type) :=
  | Returned (a : A)
  | Raised (e : exn).
Arguments Returned {A} a.
Arguments Raised {A} e.

(** ** The host: pathlib and subprocess *)

Record stat_result := { st_size : N; st_mode : N }.

(** [path_str p] is [str(Path(p))] and [path_name p] is [Path(p).name];
    [path_exists], [path_stat] are [Path(p).exists()] and [Path(p).stat()];
    [check_output argv] is
    [subprocess.check_output(argv, stderr=subprocess.STDOUT, text=True)].
    [path_type_error t] is the message of the [TypeError] that [Path(v)]
    raises for a [v] that is not a path, [t] being the name of the type of
    [v]: ["expected str, bytes or os.PathLike object, not int"] up to
    CPython 3.11, another sentence from 3.12 on. *)
Record Host (W : Type) := {
  path_type_error : string -> string;
  path_str : string -> string;
  path_name : string -> string;
  path_exists : string -> W -> outcome bool * W;
  path_stat : string -> W -> outcome stat_result * W;
  check_output : list string -> W -> outcome string * W
}.
Arguments path_type_error {W} _ _.
Arguments path_str {W} _ _.
Arguments path_name {W} _ _.
Arguments path_exists {W} _ _ _.
Arguments path_stat {W} _ _ _.
Arguments check_output {W} _ _ _.

(** ** The registry data *)

(** A JSON literal, for the [inputSchema] dictionaries. *)
#[local] Unset Elimination Schemes.
Inductive json :=
  | JStr (s : string)
  | JInt (n : Z)
  | JList (l : list json)
  | JObj (fields : list (string * json)).
#[local] Set Elimination Schemes.

Record Tool := {
  name : string;
  description : string;
  inputSchema : json
}.

Record TextContent := { type : string; text : string }.

(** [TextContent(type="text", text=t)] *)
Definition block (t : string) : TextContent := {| type := "text"; text := t |}.

(** [d[key]] on a JSON object literal. *)
Definition json_field (key : string) (j : json) : option json :=
  match j with
  | JObj fields => snd <$> List.find (fun kv => String.eqb (fst kv) key) fields
  | _ => None
  end.

(** The names listed under ["required"]. *)
Definition schema_required (schema : json) : list string :=
  match json_field "required" schema with
  | Some (JList l) =>
      omap (fun j => match j with JStr s => Some s | _ => None end) l
  | _ => []
  end.

(** The declaration of one argument under ["properties"]. *)
Definition schema_property (arg : string) (schema : json) : option json :=
  json_field "properties" schema ≫= json_field arg.

(** The argument names declared under ["properties"]. *)
Definition schema_arguments (schema : json) : list string :=
  match json_field "properties" schema with
  | Some (JObj fields) => fst <$> fields
  | _ => []
  end.

Definition list_tools : list Tool :=
  [ {| name := "analyze_binary";
       description := "Analyze a binary file and get basic information (file type, size, architecture)";
       inputSchema := JObj
         [("type", JStr "object");
          ("properties", JObj
            [("file_path", JObj [("type", JStr "string");
                                 ("description", JStr "Path to the binary file to analyze")])]);
          ("required", JList [JStr "file_path"])] |};
    {| name := "extract_strings";
       description := "Extract readable strings from a binary file";
       inputSchema := JObj
         [("type", JStr "object");
          ("properties", JObj
            [("file_path", JObj [("type", JStr "string");
                                 ("description", JStr "Path to the binary file")]);
             ("min_length", JObj [("type", JStr "integer");
                                  ("description", JStr "Minimum string length (default: 4)");
                                  ("default", JInt 4)])]);
          ("required", JList [JStr "file_path"])] |};
    {| name := "get_file_info";
       description := "Get detailed file information using 'file' command";
       inputSchema := JObj
         [("type", JStr "object");
          ("properties", JObj
            [("file_path", JObj [("type", JStr "string");
                                 ("description", JStr "Path to the file")])]);
          ("required", JList [JStr "file_path"])] |};
    {| name := "check_security";
       description := "Check binary security features (NX, PIE, Stack Canary, RELRO)";
       inputSchema := JObj
         [("type", JStr "object");
          ("properties", JObj
            [("file_path", JObj [("type", JStr "string");
                                 ("description", JStr "Path to the binary file")])]);
          ("required", JList [JStr "file_path"])] |} ].

(** ** Handlers and dispatcher *)

Section Server.

Context {W : Type} (os : Host W).

(** The state a call runs in: the world, and the argument vectors of the
    external commands the program has tried to start so far. *)
Record state := { world : W; spawned : list (list string) }.

(** The state after a step that changed the world to [w] and started no
    command. *)
Definition quiet (s : state) (w : W) : state :=
  {| world := w; spawned := spawned s |}.

(** The state after an attempt to run [argv] that left the world [w]. *)
Definition ran (s : state) (argv : list string) (w : W) : state :=
  {| world := w; spawned := spawned s ++ [argv] |}.

Definition M (A : Type) : Type := state -> outcome A * state.

Definition ret {A} (a : A) : M A := fun s => (Returned a, s).

Definition raise {A} (e : exn) : M A := fun s => (Raised e, s).

Definition bind {A B} (m : M A) (k : A -> M B) : M B :=
  fun s => match m s with
           | (Returned a, s') => k a s'
           | (Raised e, s') => (Raised e, s')
           end.

Notation "'let*' x ':=' m 'in' k" := (bind m (fun x => k))
  (at level 10, x name, m at level 100, k at level 200).

(** [try: m  except C1 as e: h1 e  except C2 as e: h2 e ...]: the first
    clause whose class test accepts the exception handles it. *)
Fixpoint handle {A} (clauses : list ((exn -> bool) * (exn -> M A)))
    (e : exn) : M A :=
  match clauses with
  | [] => raise e
  | (catches, h) :: rest => if catches e then h e else handle rest e
  end.

Definition try_except {A} (m : M A)
    (clauses : list ((exn -> bool) * (exn -> M A))) : M A :=
  fun s => match m s with
           | (Returned a, s') => (Returned a, s')
           | (Raised e, s') => handle clauses e s'
           end.

Definition lift {A} (f : W -> outcome A * W) : M A :=
  fun s => let (r, w) := f (world s) in (r, quiet s w).

(** [Path(v)]: only a [str] is accepted, anything else raises the
    [TypeError] of [pathlib].  The path is kept as the string it was built
    from. *)
Definition Path (v : value) : M string :=
  match v with
  | VStr p => ret p
  | _ => raise (TypeError (path_type_error os (type_name_of v)))
  end.

Definition exists_ (path : string) : M bool := lift (path_exists os path).

Definition stat (path : string) : M stat_result := lift (path_stat os path).

(** [subprocess.check_output(argv, ...)], logging the attempt. *)
Definition subprocess_check_output (argv : list string) : M string :=
  fun s => let (r, w) := check_output os argv (world s) in
           (r, ran s argv w).

(** Reading a local variable that an earlier branch may have left
    unassigned. *)
Definition local {A} (var : string) (x : option A) : M A :=
  match x with
  | Some a => ret a
  | None => raise (UnboundLocalError var)
  end.

Definition enabled (b : bool) : string :=
  if b then "Enabled" else "Disabled".

Definition analyze_binary (file_path : value) : M string :=
  let* path := Path file_path in
  let* found := exists_ path in
  if negb found then ret ("Error: File not found: " +:+ path)
  else
    let results :=
      ["=== Binary Analysis: " +:+ path_name os path +:+ " ===" +:+ Py.nl] in
    let* st := stat path in
    let results := results ++
      ["File Size: " +:+ Py.format_thousands (st_size st) +:+ " bytes ("
       +:+ Py.format_kb (st_size st) +:+ " KB)"] in
    let results := results ++
      ["Permissions: " +:+ Py.last3 (Py.oct (st_mode st))] in
    let* r := try_except
           (let* out := subprocess_check_output ["file"; path_str os path] in
            ret (Some out,
                 results ++ [Py.nl +:+ "File Type:" +:+ Py.nl +:+ Py.strip out]))
           [(is_CalledProcessError,
             fun e => ret (None,
               results ++ ["Could not determine file type: " +:+ str_exn e]))] in
    let '(file_output_var, results) := r in
    let* file_output := local "file_output" file_output_var in
    let* results :=
      (if Py.contains "ELF" file_output then
         try_except
           (let* readelf_output :=
              subprocess_check_output ["readelf"; "-h"; path_str os path] in
            ret (results ++ [Py.nl +:+ "ELF Header:" +:+ Py.nl +:+ readelf_output]))
           [(fun e => is_CalledProcessError e || is_FileNotFoundError e,
             fun _ => ret (results ++
               [Py.nl +:+ "(readelf not available for detailed ELF analysis)"]))]
       else ret results) in
    ret (Py.join_nl results).

(** The text built from the lines of the [strings] output. *)
Definition format_strings (lines : list string) : string :=
  if (100 <? length lines)%nat then
    "=== Strings Extracted (showing first 100 of "
      +:+ pretty (length lines) +:+ ") ===" +:+ Py.nl +:+ Py.nl
      +:+ Py.join_nl (take 100 lines)
      +:+ Py.nl +:+ Py.nl +:+ "... and " +:+ pretty (length lines - 100)
      +:+ " more strings"
  else
    "=== Strings Extracted (" +:+ pretty (length lines) +:+ " total) ==="
      +:+ Py.nl +:+ Py.nl +:+ Py.join_nl lines.

Definition extract_strings (file_path : value) (min_length : value) : M string :=
  let* path := Path file_path in
  let* found := exists_ path in
  if negb found then ret ("Error: File not found: " +:+ path)
  else
    try_except
      (let* strings_output :=
         subprocess_check_output
           ["strings"; "-n"; str_value min_length; path_str os path] in
       let lines := Py.split_nl (Py.strip strings_output) in
       ret (format_strings lines))
      [(is_CalledProcessError,
        fun e => ret ("Error extracting strings: " +:+ str_exn e));
       (is_FileNotFoundError,
        fun _ => ret "Error: 'strings' command not found. Install binutils package.")].

(** The declared default of the handler's own signature,
    [min_length: int = 4]. *)
Definition extract_strings_default (file_path : value) : M string :=
  extract_strings file_path (VInt 4).

Definition get_file_info (file_path : value) : M string :=
  let* path := Path file_path in
  let* found := exists_ path in
  if negb found then ret ("Error: File not found: " +:+ path)
  else
    try_except
      (let* output := subprocess_check_output ["file"; "-b"; path_str os path] in
       ret ("File Info: " +:+ Py.strip output))
      [(is_CalledProcessError, fun e => ret ("Error: " +:+ str_exn e))].

Definition install_note : string :=
  Py.nl +:+ "Note: Install 'checksec' or 'readelf' for detailed security analysis".

Definition probe_failed (e : exn) : bool :=
  is_CalledProcessError e || is_FileNotFoundError e.

(** Statements that work on the local list [results], which Python
    mutates in place: the list is threaded through the statements and is
    still there, as it was left, when one of them raises. *)
Definition Block (A : Type) : Type :=
  list string -> state -> outcome A * list string * state.

Definition block_bind {A B} (m : Block A) (k : A -> Block B) : Block B :=
  fun results s =>
    match m results s with
    | (Returned a, results', s') => k a results' s'
    | (Raised e, results', s') => (Raised e, results', s')
    end.

Notation "'let+' x ':=' m 'in' k" := (block_bind m (fun x => k))
  (at level 10, x name, m at level 100, k at level 200).

(** A statement that leaves [results] alone. *)
Definition run {A} (m : M A) : Block A :=
  fun results s => let (r, s') := m s in (r, results, s').

(** [results.append(line)] *)
Definition append (line : string) : Block unit :=
  fun results s => (Returned tt, results ++ [line], s).

(** [return "\n".join(results)] *)
Definition return_joined : Block string :=
  fun results s => (Returned (Py.join_nl results), results, s).

(** [try: body  except <catches>: handler], both working on [results]. *)
Definition try_block {A} (body : Block A) (catches : exn -> bool)
    (handler : exn -> Block A) (results : list string) : M A :=
  fun s =>
    match body results s with
    | (Returned a, _, s') => (Returned a, s')
    | (Raised e, results', s') =>
        if catches e then
          match handler e results' s' with (r, _, s'') => (r, s'') end
        else (Raised e, s')
    end.

(** The manual checks of [check_security], entered when [checksec] is not
    installed. *)
Definition manual_checks (path : string) : list string -> M string :=
  try_block
    (let+ readelf_wx :=
       run (subprocess_check_output ["readelf"; "-l"; path_str os path]) in
     let nx_enabled :=
       Py.contains "GNU_STACK" readelf_wx && Py.contains "RW" readelf_wx in
     let+ _ := append ("NX (No Execute): " +:+ enabled nx_enabled) in
     let+ readelf_h :=
       run (subprocess_check_output ["readelf"; "-h"; path_str os path]) in
     let pie_enabled :=
       Py.contains "DYN (Shared object file)" readelf_h
       || Py.contains "DYN (Position-Independent Executable file)" readelf_h in
     let+ _ := append ("PIE: " +:+ enabled pie_enabled) in
     let+ symbols := run (subprocess_check_output ["nm"; path_str os path]) in
     let canary_enabled := Py.contains "__stack_chk_fail" symbols in
     let+ _ := append ("Stack Canary: " +:+ enabled canary_enabled) in
     return_joined)
    probe_failed
    (fun _ => let+ _ := append install_note in return_joined).

(** The first line of the report of [check_security]. *)
Definition security_header (path : string) : string :=
  "=== Security Features: " +:+ path_name os path +:+ " ===" +:+ Py.nl.

Definition check_security (file_path : value) : M string :=
  let* path := Path file_path in
  let* found := exists_ path in
  if negb found then ret ("Error: File not found: " +:+ path)
  else
    let results := [security_header path] in
    let* r := try_except
           (let* checksec_output :=
              subprocess_check_output ["checksec"; "--file=" +:+ path_str os path] in
            ret (Some (Py.join_nl (results ++ [checksec_output]))))
           [(is_FileNotFoundError, fun _ => ret None)] in
    match r with
    | Some summary => ret summary
    | None => manual_checks path results
    end.

(** [arguments[key]] *)
Definition getitem (arguments : gmap string value) (key : string) : M value :=
  match arguments !! key with
  | Some v => ret v
  | None => raise (KeyError key)
  end.

(** [arguments.get(key, dflt)] *)
Definition dict_get (arguments : gmap string value) (key : string)
    (dflt : value) : value :=
  default dflt (arguments !! key).

(** The operations the if/elif chain of [call_tool] tells apart. *)
Inductive operation :=
  | AnalyzeBinary | ExtractStrings | GetFileInfo | CheckSecurity.

Definition route (name : string) : option operation :=
  if String.eqb name "analyze_binary" then Some AnalyzeBinary
  else if String.eqb name "extract_strings" then Some ExtractStrings
  else if String.eqb name "get_file_info" then Some GetFileInfo
  else if String.eqb name "check_security" then Some CheckSecurity
  else None.

(** The branch of the chain taken for each operation. *)
Definition invoke (op : operation) (arguments : gmap string value) : M string :=
  match op with
  | AnalyzeBinary =>
      let* file_path := getitem arguments "file_path" in
      analyze_binary file_path
  | ExtractStrings =>
      let min_len := dict_get arguments "min_length" (VInt 4) in
      let* file_path := getitem arguments "file_path" in
      extract_strings file_path min_len
  | GetFileInfo =>
      let* file_path := getitem arguments "file_path" in
      get_file_info file_path
  | CheckSecurity =>
      let* file_path := getitem arguments "file_path" in
      check_security file_path
  end.

(** The body of the [try] of [call_tool], up to the assignment of
    [result]. *)
Definition dispatch (name : string) (arguments : gmap string value) : M string :=
  match route name with
  | Some op => invoke op arguments
  | None => ret ("Unknown tool: " +:+ name)
  end.

Definition call_tool (name : string) (arguments : gmap string value)
    : M (list TextContent) :=
  try_except
    (let* result := dispatch name arguments in
     ret [ {| type := "text"; text := result |} ])
    [(is_Exception,
      fun e =>
        let error_msg := "Error executing " +:+ name +:+ ": " +:+ str_exn e in
        ret [ {| type := "text"; text := error_msg |} ])].

End Server.

Arguments world {W} _.
Arguments spawned {W} _.
Arguments quiet {W} _ _.
Arguments ran {W} _ _ _.

(** The names the registry advertises. *)
Definition tool_names : list string := name <$> list_tools.

(** What [get_file_info] computes from the answers of its two questions to
    the host: the existence test and the [file -b] probe. *)
Definition file_info_text (p : string) (found : outcome bool)
    (probe_result : outcome string) : outcome string :=
  match found with
  | Raised e => Raised e
  | Returned false => Returned ("Error: File not found: " +:+ p)
  | Returned true =>
      match probe_result with
      | Returned output => Returned ("File Info: " +:+ Py.strip output)
      | Raised (CalledProcessError d) => Returned ("Error: " +:+ d)
      | Raised e => Raised e
      end
  end.

(** ** A concrete host, for running the handlers on examples *)

Module Demo.

(** The text after the last ['/']. *)
Fixpoint basename (p : string) : string :=
  match p with
  | EmptyString => EmptyString
  | String c p' =>
      if Py.contains "/" p' then basename p'
      else if Ascii.eqb c "/"%char then p' else p
  end.

(** The [TypeError] of [Path(...)] as CPython 3.11 words it. *)
Definition type_error_3_11 (t : string) : string :=
  "expected str, bytes or os.PathLike object, not " +:+ t.

(** A host whose world never changes: [files] lists the paths that exist,
    with their [stat]; [run] answers the external commands.  The paths of
    the examples are in normal form, so [str(Path(p))] is [p]. *)
Definition host (files : list (string * stat_result))
    (run : list string -> outcome string) : Host unit :=
  {| path_type_error := type_error_3_11;
     path_str := fun p => p;
     path_name := basename;
     path_exists := fun p w =>
       (Returned (bool_decide (p ∈ (fst <$> files))), w);
     path_stat := fun p w =>
       (match List.find (fun f => String.eqb (fst f) p) files with
        | Some f => Returned (snd f)
        | None => Raised (FileNotFoundError
                    ("[Errno 2] No such file or directory: '" +:+ p +:+ "'"))
        end, w);
     check_output := fun argv w => (run argv, w) |}.

Definition start : state (W := unit) := {| world := tt; spawned := [] |}.

(** No external tool is installed. *)
Definition no_tools (argv : list string) : outcome string :=
  Raised (FileNotFoundError
    ("[Errno 2] No such file or directory: '" +:+ hd "" argv +:+ "'")).

Definition a_file : list (string * stat_result) :=
  [("/bin/ls", {| st_size := 142312; st_mode := 33261 |})].

(** The external commands answer as [table] says; a command that is not
    in the table is not installed. *)
Definition answers (table : list (list string * outcome string))
    (argv : list string) : outcome string :=
  match List.find (fun row => bool_decide (fst row = argv)) table with
  | Some row => snd row
  | None => no_tools argv
  end.


Definition exit_status (cmd : string) (code : string) : exn :=
  CalledProcessError
    ("Command '" +:+ cmd +:+ "' returned non-zero exit status " +:+ code +:+ ".").

(** [/bin/ls] exists and [file] exits with status 1. *)
Definition file_fails : Host unit :=
  host a_file
    (answers [(["file"; "/bin/ls"],
               Raised (exit_status "['file', '/bin/ls']" "1"))]).

(** [/bin/ls] exists and [checksec] exits with status 2. *)
Definition checksec_fails : Host unit :=
  host a_file
    (answers [(["checksec"; "--file=/bin/ls"],
               Raised (exit_status "['checksec', '--file=/bin/ls']" "2"))]).

(** [/bin/ls] exists, [checksec] is not installed, binutils are. *)
Definition binutils_only : Host unit :=
  host a_file
    (answers
       [(["readelf"; "-l"; "/bin/ls"],
         Returned ("  GNU_STACK      0x000000 0x000000 0x000000 RW  0x10" +:+ Py.nl));
        (["readelf"; "-h"; "/bin/ls"],
         Returned ("  Type:          EXEC (Executable file)" +:+ Py.nl));
        (["nm"; "/bin/ls"],
         Returned ("                 U __stack_chk_fail@GLIBC_2.4" +:+ Py.nl))]).


(** [/bin/ls] exists and [strings] finds nothing in it. *)
Definition no_strings : Host unit :=
  host a_file (answers [(["strings"; "-n"; "4"; "/bin/ls"], Returned "")]).

(** [/bin/ls] exists and [strings] finds two strings in it. *)
Definition two_strings : Host unit :=
  host a_file
    (answers [(["strings"; "-n"; "4"; "/bin/ls"],
               Returned (unlines ["/lib64/ld-linux-x86-64.so.2"; "libc.so.6"]))]).

End Demo.

(** ** Start-up: looking for a Ghidra installation *)

(** What [_find_ghidra] reads from the process it runs in: [home_ghidra] is
    [str(Path.home() / "ghidra")] (the home directory can be determined),
    [environ] is [os.environ]. *)
Record Process := {
  home_ghidra : string;
  environ : gmap string string
}.

(** [os.environ.get(key, dflt)] *)
Definition environ_get (pr : Process) (key dflt : string) : string :=
  default dflt (environ pr !! key).

Definition common_paths (pr : Process) : list string :=
  [ "/opt/ghidra";
    "/usr/local/ghidra";
    home_ghidra pr;
    environ_get pr "GHIDRA_INSTALL_DIR" "" ].

Section Startup.

Context {W : Type} (os : Host W).

(** The loop [for path in common_paths: if path and Path(path).exists():
    return path], ending in [return None].  [path and ...] does not build
    the [Path] of an empty string. *)
Fixpoint first_existing (paths : list string) : M (option string) :=
  match paths with
  | [] => ret None
  | path :: rest =>
      if bool_decide (path = "") then first_existing rest
      else bind (exists_ os path) (fun found =>
             if found then ret (Some path) else first_existing rest)
  end.

Definition _find_ghidra (pr : Process) : M (option string) :=
  first_existing (common_paths pr).

(** The commands a handler can start for the path [p], in the order of the
    source text. *)
Definition commands (op : operation) (p : string) (min_length : value)
    : list (list string) :=
  match op with
  | AnalyzeBinary =>
      [ ["file"; path_str os p]; ["readelf"; "-h"; path_str os p] ]
  | ExtractStrings =>
      [ ["strings"; "-n"; str_value min_length; path_str os p] ]
  | GetFileInfo =>
      [ ["file"; "-b"; path_str os p] ]
  | CheckSecurity =>
      [ ["checksec"; "--file=" +:+ path_str os p];
        ["readelf"; "-l"; path_str os p];
        ["readelf"; "-h"; path_str os p];
        ["nm"; path_str os p] ]
  end.

(** The first lines of the summary of [analyze_binary], up to the file
    type. *)
Definition analysis_lines (p : string) (st : stat_result) (out : string)
    : list string :=
  [ "=== Binary Analysis: " +:+ path_name os p +:+ " ===" +:+ Py.nl;
    "File Size: " +:+ Py.format_thousands (st_size st) +:+ " bytes ("
      +:+ Py.format_kb (st_size st) +:+ " KB)";
    "Permissions: " +:+ Py.last3 (Py.oct (st_mode st));
    Py.nl +:+ "File Type:" +:+ Py.nl +:+ Py.strip out ].

End Startup.

(** The log of [after] extends the log of [before] by a prefix of [cmds]:
    between the two states the commands of [cmds] were started in order,
    each at most once, up to some point. *)
Definition started {W} (before after : state (W := W))
    (cmds : list (list string)) : Prop :=
  exists new, spawned after = spawned before ++ new /\ new `prefix_of` cmds.

(** The programs the handlers name. *)
Definition programs : list string :=
  ["file"; "strings"; "readelf"; "nm"; "checksec"].

(** The number of newline characters of a text. *)
Fixpoint count_newlines (t : string) : nat :=
  match t with
  | EmptyString => 0
  | String c t' =>
      (if Ascii.eqb c "010"%char then 1 else 0) + count_newlines t'
  end.

(** More hosts for examples. *)
Module Demo2.

(** [/opt/ghidra] and [/srv/ghidra] exist. *)
Definition installs : list (string * stat_result) :=
  [("/opt/ghidra", {| st_size := 4096; st_mode := 16877 |});
   ("/srv/ghidra", {| st_size := 4096; st_mode := 16877 |})].

(** Only [/srv/ghidra] exists. *)
Definition custom_install : list (string * stat_result) :=
  [("/srv/ghidra", {| st_size := 4096; st_mode := 16877 |})].

Definition with_variable : Process :=
  {| home_ghidra := "/home/user/ghidra";
     environ := {[ "GHIDRA_INSTALL_DIR" := "/srv/ghidra" ]} |}.

Definition without_variable : Process :=
  {| home_ghidra := "/home/user/ghidra"; environ := ∅ |}.

(** A text file whose path contains the letters ELF. *)
Definition notes : list (string * stat_result) :=
  [("/tmp/SHELF.txt", {| st_size := 12; st_mode := 33188 |})].

Definition notes_host : Host unit :=
  Demo.host notes
    (Demo.answers
       [(["file"; "/tmp/SHELF.txt"],
         Returned ("/tmp/SHELF.txt: ASCII text" +:+ Py.nl));
        (["file"; "-b"; "/tmp/SHELF.txt"], Returned ("ASCII text" +:+ Py.nl))]).

(** [/bin/ls] exists; [strings] exits with status 1. *)
Definition strings_fails : Host unit :=
  Demo.host Demo.a_file
    (Demo.answers [(["strings"; "-n"; "4"; "/bin/ls"],
                    Raised (Demo.exit_status "['strings', '-n', '4', '/bin/ls']" "1"))]).

(** [/bin/ls] exists; [checksec] answers. *)
Definition checksec_host : Host unit :=
  Demo.host Demo.a_file
    (Demo.answers [(["checksec"; "--file=/bin/ls"],
                    Returned ("RELRO: Full  NX: enabled  PIE: enabled" +:+ Py.nl))]).

(** [/bin/ls] exists, [checksec] is missing, the stack is executable. *)
Definition exec_stack : Host unit :=
  Demo.host Demo.a_file
    (Demo.answers
       [(["readelf"; "-l"; "/bin/ls"],
         Returned ("  GNU_STACK      0x000000 0x000000 0x000000 RWE 0x10" +:+ Py.nl));
        (["readelf"; "-h"; "/bin/ls"],
         Returned ("  Type:          EXEC (Executable file)" +:+ Py.nl));
        (["nm"; "/bin/ls"], Returned ("0000000000401000 T main" +:+ Py.nl))]).

(** [/bin/ls] exists, [checksec] is missing, [readelf] may not be run. *)
Definition readelf_denied : Host unit :=
  Demo.host Demo.a_file
    (Demo.answers
       [(["readelf"; "-l"; "/bin/ls"],
         Raised (OtherException "[Errno 13] Permission denied: 'readelf'"))]).

End Demo2.

(** A host that keeps the limit of a POSIX file system on the length of a
    name. *)
Module Strict.

(** [Path.exists()] as [pathlib] derives it from [stat()]: a file that is
    not there ([ENOENT], a [FileNotFoundError]) gives [False], an [OSError]
    of another kind is raised again. *)
Definition exists_of_stat (r : outcome stat_result) : outcome bool :=
  match r with
  | Returned _ => Returned true
  | Raised (FileNotFoundError _) => Returned false
  | Raised e => Raised e
  end.

(** [NAME_MAX] *)
Definition name_max : nat := 255.

(** The [OSError] for [ENAMETOOLONG]. *)
Definition name_too_long (p : string) : exn :=
  OtherException ("[Errno 36] File name too long: '" +:+ p +:+ "'").

(** [stat()] on a file system that holds [files]. *)
Definition stat_of (files : list (string * stat_result)) (p : string)
    : outcome stat_result :=
  if (name_max <? String.length (Demo.basename p))%nat
  then Raised (name_too_long p)
  else match List.find (fun f => String.eqb (fst f) p) files with
       | Some f => Returned (snd f)
       | None => Raised (FileNotFoundError
                   ("[Errno 2] No such file or directory: '" +:+ p +:+ "'"))
       end.

Definition host (files : list (string * stat_result))
    (run : list string -> outcome string) : Host unit :=
  {| path_type_error := Demo.type_error_3_11;
     path_str := fun p => p;
     path_name := Demo.basename;
     path_exists := fun p w => (exists_of_stat (stat_of files p), w);
     path_stat := fun p w => (stat_of files p, w);
     check_output := fun argv w => (run argv, w) |}.

Fixpoint letters (n : nat) : string :=
  match n with
  | O => EmptyString
  | S n' => String "a" (letters n')
  end.

(** A path under [/tmp] whose last component has 300 letters. *)
Definition long_path : string := "/tmp/" +:+ letters 300.

End Strict.

(** * Properties *)

(** ** The string primitives on examples *)

Example strip_ex : Py.strip (" a b " +:+ Py.nl) = "a b".
Proof. reflexivity. Qed.

Example split_ex :
  Py.split_nl ("a" +:+ Py.nl +:+ Py.nl +:+ "b") = ["a"; ""; "b"].
Proof. reflexivity. Qed.

Example split_empty_ex : Py.split_nl "" = [""].
Proof. reflexivity. Qed.

Example thousands_ex : Py.format_thousands 1234567 = "1,234,567".
Proof. vm_compute. reflexivity. Qed.

Example kb_ex : Py.format_kb 128 = "0.12" /\ Py.format_kb 1536 = "1.50".
Proof. vm_compute. split; reflexivity. Qed.

Example oct_ex : Py.last3 (Py.oct 33188) = "644" /\ Py.oct 0 = "0o0".
Proof. vm_compute. split; reflexivity. Qed.

(** ** Routing *)

Lemma route_Some_iff (nm : string) :
  is_Some (route nm) <-> nm ∈ tool_names.
Proof.
  unfold route, tool_names. simpl.
  rewrite !elem_of_cons, elem_of_nil.
  repeat match goal with
         | |- context [String.eqb nm ?c] =>
             destruct (String.eqb_spec nm c) as [-> | ?]; [split; eauto 6 |]
         end.
  split; [intros [? ?]; discriminate |].
  intros [? | [? | [? | [? | []]]]]; congruence.
Qed.

Lemma route_None (nm : string) : nm ∉ tool_names -> route nm = None.
Proof.
  intros H. destruct (route nm) eqn:E; [| reflexivity].
  exfalso. apply H, route_Some_iff. eauto.
Qed.

(** ** The dispatcher *)

Section Dispatcher.

Context {W : Type} (os : Host W).

Lemma call_tool_returned nm arguments s r s' :
  dispatch os nm arguments s = (Returned r, s') ->
  call_tool os nm arguments s = (Returned [block r], s').
Proof.
  intros H. unfold call_tool, try_except, bind. rewrite H. reflexivity.
Qed.

Lemma call_tool_raised nm arguments s e s' :
  dispatch os nm arguments s = (Raised e, s') ->
  call_tool os nm arguments s
  = (Returned [block ("Error executing " +:+ nm +:+ ": " +:+ str_exn e)], s').
Proof.
  intros H. unfold call_tool, try_except, bind. rewrite H. reflexivity.
Qed.

Lemma invoke_missing_file_path op arguments s :
  arguments !! "file_path" = None ->
  invoke os op arguments s = (Raised (KeyError "file_path"), s).
Proof.
  intros H. destruct op; unfold invoke, bind, getitem; rewrite H; reflexivity.
Qed.

(** C1.  Whatever the operation name and the argument mapping, [call_tool]
    returns (never raises) a list of exactly one text block.  When the
    selected branch raises [e], the text of that block is
    ["Error executing <name>: <str(e)>"]; in particular a mapping without
    ["file_path"] given to one of the four operations produces
    ["Error executing <name>: 'file_path'"]. *)
Theorem call_tool_total nm (arguments : gmap string value) (s : state) :
  (exists t s', call_tool os nm arguments s = (Returned [block t], s'))
  /\ (forall e s', dispatch os nm arguments s = (Raised e, s') ->
        call_tool os nm arguments s
        = (Returned [block ("Error executing " +:+ nm +:+ ": " +:+ str_exn e)],
           s'))
  /\ (nm ∈ tool_names -> arguments !! "file_path" = None ->
        dispatch os nm arguments s = (Raised (KeyError "file_path"), s)
        /\ call_tool os nm arguments s
           = (Returned [block ("Error executing " +:+ nm +:+ ": 'file_path'")],
              s)).
Proof.
  split; [| split].
  - destruct (dispatch os nm arguments s) as [[r | e] s'] eqn:E.
    + exists r, s'. by apply call_tool_returned.
    + eexists _, s'. by apply call_tool_raised.
  - intros e s' H. by apply call_tool_raised.
  - intros Hin Hnone. apply route_Some_iff in Hin as [op Hop].
    assert (dispatch os nm arguments s = (Raised (KeyError "file_path"), s)) as D.
    { unfold dispatch. rewrite Hop. by apply invoke_missing_file_path. }
    split; [exact D |]. by rewrite (call_tool_raised _ _ _ _ _ D).
Qed.

(** C2.  A name outside the four routed ones yields the single block
    ["Unknown tool: <name>"]; the call returns normally and touches neither
    the world nor any external command. *)
Theorem call_tool_unknown nm (arguments : gmap string value) (s : state) :
  nm ∉ ["analyze_binary"; "extract_strings"; "get_file_info"; "check_security"] ->
  call_tool os nm arguments s
  = (Returned [block ("Unknown tool: " +:+ nm)], s).
Proof.
  intros H. apply call_tool_returned.
  unfold dispatch. rewrite (route_None nm); [reflexivity | exact H].
Qed.

End Dispatcher.

Lemma call_tool_total_witness :
  call_tool (Demo.host [] Demo.no_tools) "get_file_info" ∅ Demo.start
  = (Returned [block "Error executing get_file_info: 'file_path'"], Demo.start).
Proof.
  apply (call_tool_total (Demo.host [] Demo.no_tools) "get_file_info" ∅ Demo.start).
  - vm_compute. repeat constructor.
  - reflexivity.
Defined.

Lemma call_tool_unknown_witness :
  call_tool (Demo.host [] Demo.no_tools) "list_functions"
    {[ "file_path" := VStr "/bin/ls" ]} Demo.start
  = (Returned [block "Unknown tool: list_functions"], Demo.start).
Proof.
  apply (call_tool_unknown (Demo.host [] Demo.no_tools) "list_functions").
  rewrite !elem_of_cons, elem_of_nil. intros H.
  repeat (destruct H as [H | H]; [discriminate H |]). exact H.
Defined.

(** ** The handlers *)

Section Handlers.

Context {W : Type} (os : Host W).

Implicit Types (s : state (W := W)) (p : string).

Lemma exists_eq p s r w :
  path_exists os p (world s) = (r, w) -> exists_ os p s = (r, quiet s w).
Proof. intros H. unfold exists_, lift. rewrite H. reflexivity. Qed.

Lemma stat_eq p s r w :
  path_stat os p (world s) = (r, w) -> stat os p s = (r, quiet s w).
Proof. intros H. unfold stat, lift. rewrite H. reflexivity. Qed.

Lemma check_output_eq argv s r w :
  check_output os argv (world s) = (r, w) ->
  subprocess_check_output os argv s = (r, ran s argv w).
Proof. intros H. unfold subprocess_check_output. rewrite H. reflexivity. Qed.

Lemma invoke_file_path op arguments v :
  arguments !! "file_path" = Some v ->
  invoke os op arguments
  = match op with
    | AnalyzeBinary => analyze_binary os v
    | ExtractStrings =>
        extract_strings os v (dict_get arguments "min_length" (VInt 4))
    | GetFileInfo => get_file_info os v
    | CheckSecurity => check_security os v
    end.
Proof.
  intros H. destruct op; unfold invoke, getitem, bind, ret; rewrite H;
    reflexivity.
Qed.

(** C3, as amended.  When [Path(file_path).exists()] answers [False], each
    of the four handlers returns (does not raise) the text
    ["Error: File not found: <path>"], and the log of external commands is
    the one it started with; so does the dispatcher for each of the four
    names. *)
Theorem file_not_found p min_length s w :
  path_exists os p (world s) = (Returned false, w) ->
  analyze_binary os (VStr p) s
  = (Returned ("Error: File not found: " +:+ p), quiet s w)
  /\ extract_strings os (VStr p) min_length s
     = (Returned ("Error: File not found: " +:+ p), quiet s w)
  /\ get_file_info os (VStr p) s
     = (Returned ("Error: File not found: " +:+ p), quiet s w)
  /\ check_security os (VStr p) s
     = (Returned ("Error: File not found: " +:+ p), quiet s w)
  /\ spawned (quiet s w) = spawned s
  /\ forall nm (arguments : gmap string value),
       nm ∈ tool_names ->
       arguments !! "file_path" = Some (VStr p) ->
       call_tool os nm arguments s
       = (Returned [block ("Error: File not found: " +:+ p)], quiet s w).
Proof.
  intros H. apply exists_eq in H.
  assert (analyze_binary os (VStr p) s
          = (Returned ("Error: File not found: " +:+ p), quiet s w)) as Ha.
  { unfold analyze_binary, bind, Path, ret. rewrite H. reflexivity. }
  assert (forall m, extract_strings os (VStr p) m s
          = (Returned ("Error: File not found: " +:+ p), quiet s w)) as He.
  { intros m. unfold extract_strings, bind, Path, ret. rewrite H. reflexivity. }
  assert (get_file_info os (VStr p) s
          = (Returned ("Error: File not found: " +:+ p), quiet s w)) as Hg.
  { unfold get_file_info, bind, Path, ret. rewrite H. reflexivity. }
  assert (check_security os (VStr p) s
          = (Returned ("Error: File not found: " +:+ p), quiet s w)) as Hc.
  { unfold check_security, bind, Path, ret. rewrite H. reflexivity. }
  repeat split; auto.
  intros nm arguments Hin Hfp. apply call_tool_returned.
  apply route_Some_iff in Hin as [op Hop].
  unfold dispatch. rewrite Hop, (invoke_file_path _ _ _ Hfp).
  destruct op; auto.
Qed.

End Handlers.

Lemma file_not_found_witness :
  call_tool (Demo.host Demo.a_file Demo.no_tools) "check_security"
    {[ "file_path" := VStr "/tmp/missing" ]} Demo.start
  = (Returned [block "Error: File not found: /tmp/missing"], Demo.start).
Proof.
  apply (file_not_found (Demo.host Demo.a_file Demo.no_tools) "/tmp/missing"
           (VInt 4) Demo.start tt).
  - reflexivity.
  - vm_compute. repeat constructor.
  - reflexivity.
Defined.

(** C3 as the claim words it fails: a path with a name of 300 letters does
    not exist, [stat()] and with it [exists()] raise [OSError] for
    [ENAMETOOLONG], and each of the four handlers raises instead of
    returning ["Error: File not found: ..."]; the caller gets the
    dispatcher's error block. *)
Lemma file_not_found_counterexample :
  (Strict.long_path ∉ fst <$> Demo.a_file)
  /\ path_stat (Strict.host Demo.a_file Demo.no_tools) Strict.long_path tt
     = (Raised (Strict.name_too_long Strict.long_path), tt)
  /\ path_exists (Strict.host Demo.a_file Demo.no_tools) Strict.long_path tt
     = (Raised (Strict.name_too_long Strict.long_path), tt)
  /\ analyze_binary (Strict.host Demo.a_file Demo.no_tools)
       (VStr Strict.long_path) Demo.start
     = (Raised (Strict.name_too_long Strict.long_path), Demo.start)
  /\ extract_strings (Strict.host Demo.a_file Demo.no_tools)
       (VStr Strict.long_path) (VInt 4) Demo.start
     = (Raised (Strict.name_too_long Strict.long_path), Demo.start)
  /\ get_file_info (Strict.host Demo.a_file Demo.no_tools)
       (VStr Strict.long_path) Demo.start
     = (Raised (Strict.name_too_long Strict.long_path), Demo.start)
  /\ check_security (Strict.host Demo.a_file Demo.no_tools)
       (VStr Strict.long_path) Demo.start
     = (Raised (Strict.name_too_long Strict.long_path), Demo.start)
  /\ analyze_binary (Strict.host Demo.a_file Demo.no_tools)
       (VStr Strict.long_path) Demo.start
     <> (Returned ("Error: File not found: " +:+ Strict.long_path), Demo.start)
  /\ call_tool (Strict.host Demo.a_file Demo.no_tools) "get_file_info"
       {[ "file_path" := VStr Strict.long_path ]} Demo.start
     = (Returned [block ("Error executing get_file_info: "
                         +:+ str_exn (Strict.name_too_long Strict.long_path))],
        Demo.start).
Proof.
  split.
  - intros H. apply list_elem_of_In in H. simpl in H.
    destruct H as [H | []]. discriminate H.
  - repeat split; try (vm_compute; reflexivity).
    vm_compute. discriminate.
Qed.

(** ** The default of [min_length] *)

Section MinLength.

Context {W : Type} (os : Host W).

Lemma dict_get_absent (arguments : gmap string value) :
  dict_get (delete "min_length" arguments) "min_length" (VInt 4) = VInt 4.
Proof. unfold dict_get. by rewrite lookup_delete_eq. Qed.

Lemma dict_get_present (arguments : gmap string value) v :
  dict_get (<["min_length" := v]> arguments) "min_length" (VInt 4) = v.
Proof. unfold dict_get. by rewrite lookup_insert_eq. Qed.

(** C7.  Dispatching [extract_strings] with a mapping that has no
    ["min_length"] is the same computation as dispatching it with
    ["min_length"] set to 4: the dispatcher supplies the 4 with
    [arguments.get], and the handler then runs as with its own declared
    default.  The registry only declares the default. *)
Theorem min_length_default (arguments : gmap string value) :
  call_tool os "extract_strings" (delete "min_length" arguments)
  = call_tool os "extract_strings" (<["min_length" := VInt 4]> arguments)
  /\ (forall v, arguments !! "file_path" = Some v ->
        dispatch os "extract_strings" (delete "min_length" arguments)
        = extract_strings_default os v)
  /\ (schema_property "min_length" <$>
        (inputSchema <$> List.find (fun t => String.eqb (name t) "extract_strings")
                           list_tools))
     = Some (Some (JObj [("type", JStr "integer");
                         ("description", JStr "Minimum string length (default: 4)");
                         ("default", JInt 4)])).
Proof.
  split; [| split].
  - unfold call_tool, dispatch. simpl. unfold getitem.
    rewrite dict_get_absent, dict_get_present.
    rewrite lookup_delete_ne, lookup_insert_ne by discriminate.
    reflexivity.
  - intros v Hv. unfold dispatch. simpl. unfold getitem, extract_strings_default.
    rewrite dict_get_absent, lookup_delete_ne, Hv by discriminate.
    reflexivity.
  - reflexivity.
Qed.

End MinLength.

Lemma min_length_default_witness :
  dispatch (Demo.host Demo.a_file Demo.no_tools) "extract_strings"
    (delete "min_length" {[ "file_path" := VStr "/bin/ls" ]})
  = extract_strings_default (Demo.host Demo.a_file Demo.no_tools) (VStr "/bin/ls").
Proof.
  apply (min_length_default (Demo.host Demo.a_file Demo.no_tools)
           {[ "file_path" := VStr "/bin/ls" ]}).
  reflexivity.
Defined.

(** ** Determinism of [get_file_info] *)

Section FileInfo.

Context {W : Type} (os : Host W).

Lemma get_file_info_text p (s : state) found w probe_result w' :
  path_exists os p (world s) = (found, w) ->
  check_output os ["file"; "-b"; path_str os p] w = (probe_result, w') ->
  (get_file_info os (VStr p) s).1 = file_info_text p found probe_result.
Proof.
  intros Hx Hc. unfold get_file_info, bind, Path, ret.
  rewrite (exists_eq os _ _ _ _ Hx).
  destruct found as [[|] | e]; simpl; [| reflexivity | reflexivity].
  unfold try_except, bind.
  rewrite (check_output_eq os _ (quiet s w) _ _ Hc).
  destruct probe_result as [out | []]; reflexivity.
Qed.

(** C8.  Two calls of [get_file_info] on the same path, from any two
    states in which the existence test and the [file -b] probe answer the
    same, give the same result: the same text, character for character
    (or the same exception). *)
Theorem get_file_info_deterministic p (s1 s2 : state)
    found probe_result w1 w1' w2 w2' :
  path_exists os p (world s1) = (found, w1) ->
  path_exists os p (world s2) = (found, w2) ->
  check_output os ["file"; "-b"; path_str os p] w1 = (probe_result, w1') ->
  check_output os ["file"; "-b"; path_str os p] w2 = (probe_result, w2') ->
  (get_file_info os (VStr p) s1).1 = (get_file_info os (VStr p) s2).1.
Proof.
  intros Hx1 Hx2 Hc1 Hc2.
  rewrite (get_file_info_text _ _ _ _ _ _ Hx1 Hc1).
  rewrite (get_file_info_text _ _ _ _ _ _ Hx2 Hc2).
  reflexivity.
Qed.

End FileInfo.

Lemma get_file_info_deterministic_witness :
  let os := Demo.host Demo.a_file
              (Demo.answers [(["file"; "-b"; "/bin/ls"],
                              Returned ("ELF 64-bit LSB pie executable" +:+ Py.nl))]) in
  (get_file_info os (VStr "/bin/ls") Demo.start).1
  = (get_file_info os (VStr "/bin/ls")
       (get_file_info os (VStr "/bin/ls") Demo.start).2).1.
Proof.
  intros os.
  apply (get_file_info_deterministic os "/bin/ls" Demo.start
           (get_file_info os (VStr "/bin/ls") Demo.start).2
           (Returned true)
           (Returned ("ELF 64-bit LSB pie executable" +:+ Py.nl)) tt tt tt tt);
    reflexivity.
Defined.

(** ** Failures of the external tools *)

Section ToolFailures.

Context {W : Type} (os : Host W).

Implicit Types (s : state (W := W)) (p : string).

(** C9.  On an existing file, when the [file] probe raises, [analyze_binary]
    raises as well: a [CalledProcessError] is caught, but the test
    ["ELF" in file_output] then reads a local that was never assigned; any
    other exception (a missing executable) is not caught at all.  The
    caller gets the dispatcher's ["Error executing analyze_binary: ..."]
    block and no summary of the handler. *)
Theorem analyze_binary_probe_raises p s w1 st w2 e w3 :
  path_exists os p (world s) = (Returned true, w1) ->
  path_stat os p w1 = (Returned st, w2) ->
  check_output os ["file"; path_str os p] w2 = (Raised e, w3) ->
  let e' := if is_CalledProcessError e then UnboundLocalError "file_output"
            else e in
  let s' := ran (quiet s w2) ["file"; path_str os p] w3 in
  analyze_binary os (VStr p) s = (Raised e', s')
  /\ (forall t s2, analyze_binary os (VStr p) s <> (Returned t, s2))
  /\ (forall arguments : gmap string value,
        arguments !! "file_path" = Some (VStr p) ->
        call_tool os "analyze_binary" arguments s
        = (Returned [block ("Error executing analyze_binary: " +:+ str_exn e')],
           s'))
  /\ (is_CalledProcessError e = true ->
        str_exn e' = "cannot access local variable 'file_output' where it is not associated with a value"
        /\ Py.contains "Could not determine file type"
             ("Error executing analyze_binary: " +:+ str_exn e') = false).
Proof.
  intros Hx Hs Hc e' s'.
  assert (analyze_binary os (VStr p) s = (Raised e', s')) as Ha.
  { unfold analyze_binary, bind, Path, ret.
    rewrite (exists_eq os _ _ _ _ Hx). simpl.
    rewrite (stat_eq os _ (quiet s w1) _ _ Hs). simpl.
    unfold try_except, bind.
    rewrite (check_output_eq os _ (quiet (quiet s w1) w2) _ _ Hc).
    subst e' s'. destruct e; reflexivity. }
  split; [exact Ha |]. split; [| split].
  - intros t s2. rewrite Ha. discriminate.
  - intros arguments Hfp.
    assert (dispatch os "analyze_binary" arguments s = (Raised e', s')) as D.
    { change (invoke os AnalyzeBinary arguments s = (Raised e', s')).
      rewrite (invoke_file_path os AnalyzeBinary _ _ Hfp). exact Ha. }
    rewrite (call_tool_raised os _ _ _ _ _ D). reflexivity.
  - intros He. subst e'. rewrite He. split; reflexivity.
Qed.

Lemma check_security_checksec p s w1 r w2 :
  path_exists os p (world s) = (Returned true, w1) ->
  check_output os ["checksec"; "--file=" +:+ path_str os p] w1 = (r, w2) ->
  let s' := ran (quiet s w1) ["checksec"; "--file=" +:+ path_str os p] w2 in
  check_security os (VStr p) s
  = match r with
    | Returned out => (Returned (Py.join_nl [security_header os p; out]), s')
    | Raised (FileNotFoundError _) => manual_checks os p [security_header os p] s'
    | Raised e => (Raised e, s')
    end.
Proof.
  intros Hx Hc s'. unfold check_security, bind, Path, ret.
  rewrite (exists_eq os _ _ _ _ Hx). simpl.
  unfold try_except, bind.
  rewrite (check_output_eq os _ (quiet s w1) _ _ Hc).
  destruct r as [out | []]; reflexivity.
Qed.

(** C10.  On an existing file, when [checksec] is installed but exits with
    a nonzero status, [check_security] raises that [CalledProcessError]:
    [checksec] is the only command it tried, no note is returned, and the
    caller gets the dispatcher's ["Error executing check_security: ..."]
    block.  Only a [FileNotFoundError] leads to the manual checks. *)
Theorem check_security_checksec_fails p s w1 d w2 :
  path_exists os p (world s) = (Returned true, w1) ->
  check_output os ["checksec"; "--file=" +:+ path_str os p] w1
  = (Raised (CalledProcessError d), w2) ->
  let s' := ran (quiet s w1) ["checksec"; "--file=" +:+ path_str os p] w2 in
  check_security os (VStr p) s = (Raised (CalledProcessError d), s')
  /\ spawned s' = spawned s ++ [["checksec"; "--file=" +:+ path_str os p]]
  /\ (forall arguments : gmap string value,
        arguments !! "file_path" = Some (VStr p) ->
        call_tool os "check_security" arguments s
        = (Returned [block ("Error executing check_security: " +:+ d)], s')).
Proof.
  intros Hx Hc s'.
  pose proof (check_security_checksec p s w1 _ w2 Hx Hc) as Hcs. simpl in Hcs.
  split; [exact Hcs |]. split; [reflexivity |].
  intros arguments Hfp.
  assert (dispatch os "check_security" arguments s
          = (Raised (CalledProcessError d), s')) as D.
  { change (invoke os CheckSecurity arguments s
            = (Raised (CalledProcessError d), s')).
    rewrite (invoke_file_path os CheckSecurity _ _ Hfp). exact Hcs. }
  rewrite (call_tool_raised os _ _ _ _ _ D). reflexivity.
Qed.

End ToolFailures.

Lemma analyze_binary_probe_raises_witness :
  call_tool Demo.file_fails "analyze_binary"
    {[ "file_path" := VStr "/bin/ls" ]} Demo.start
  = (Returned [block "Error executing analyze_binary: cannot access local variable 'file_output' where it is not associated with a value"],
     {| world := tt; spawned := [["file"; "/bin/ls"]] |}).
Proof.
  pose proof (analyze_binary_probe_raises Demo.file_fails "/bin/ls" Demo.start
                tt {| st_size := 142312; st_mode := 33261 |} tt
                (Demo.exit_status "['file', '/bin/ls']" "1") tt
                eq_refl eq_refl eq_refl) as H.
  destruct H as (_ & _ & H & _).
  apply (H {[ "file_path" := VStr "/bin/ls" ]}). reflexivity.
Defined.

Lemma check_security_checksec_fails_witness :
  call_tool Demo.checksec_fails "check_security"
    {[ "file_path" := VStr "/bin/ls" ]} Demo.start
  = (Returned [block "Error executing check_security: Command '['checksec', '--file=/bin/ls']' returned non-zero exit status 2."],
     {| world := tt; spawned := [["checksec"; "--file=/bin/ls"]] |}).
Proof.
  pose proof (check_security_checksec_fails Demo.checksec_fails "/bin/ls"
                Demo.start tt
                "Command '['checksec', '--file=/bin/ls']' returned non-zero exit status 2."
                tt eq_refl eq_refl) as H.
  destruct H as (_ & _ & H).
  apply (H {[ "file_path" := VStr "/bin/ls" ]}). reflexivity.
Defined.

(** ** The manual security checks *)

Section ManualChecks.

Context {W : Type} (os : Host W).

Implicit Types (s : state (W := W)) (p : string).

Lemma run_check_output argv (results : list string) s r w :
  check_output os argv (world s) = (r, w) ->
  run (subprocess_check_output os argv) results s = (r, results, ran s argv w).
Proof.
  intros H. unfold run. rewrite (check_output_eq os _ _ _ _ H). reflexivity.
Qed.

(** C6.  On an existing file with [checksec] not installed,
    [check_security] runs [readelf -l], [readelf -h] and [nm].  When the
    three answer, the report has one line per feature, ["Enabled"] exactly
    when the substring test on that probe's output holds and ["Disabled"]
    otherwise.  When a probe raises [FileNotFoundError] (the tool is not
    installed) or [CalledProcessError], the handler returns, without
    raising, the lines it has so far followed by the note
    ["\nNote: Install 'checksec' or 'readelf' for detailed security analysis"]. *)
Theorem check_security_manual p s w1 d w2 :
  path_exists os p (world s) = (Returned true, w1) ->
  check_output os ["checksec"; "--file=" +:+ path_str os p] w1
  = (Raised (FileNotFoundError d), w2) ->
  let s2 := ran (quiet s w1) ["checksec"; "--file=" +:+ path_str os p] w2 in
  let heading :=
    "=== Security Features: " +:+ path_name os p +:+ " ===" +:+ Py.nl in
  let note :=
    Py.nl +:+ "Note: Install 'checksec' or 'readelf' for detailed security analysis" in
  let absent_or_failed (e : exn) :=
    (exists d', e = FileNotFoundError d')
    \/ (exists d', e = CalledProcessError d') in
  let nx_line o1 := "NX (No Execute): " +:+
    (if Py.contains "GNU_STACK" o1 && Py.contains "RW" o1
     then "Enabled" else "Disabled") in
  let pie_line o2 := "PIE: " +:+
    (if Py.contains "DYN (Shared object file)" o2
        || Py.contains "DYN (Position-Independent Executable file)" o2
     then "Enabled" else "Disabled") in
  let canary_line o3 := "Stack Canary: " +:+
    (if Py.contains "__stack_chk_fail" o3 then "Enabled" else "Disabled") in
  let l := ["readelf"; "-l"; path_str os p] in
  let h := ["readelf"; "-h"; path_str os p] in
  let n := ["nm"; path_str os p] in
  (forall o1 w3 o2 w4 o3 w5,
      check_output os l w2 = (Returned o1, w3) ->
      check_output os h w3 = (Returned o2, w4) ->
      check_output os n w4 = (Returned o3, w5) ->
      check_security os (VStr p) s
      = (Returned (Py.join_nl [heading; nx_line o1; pie_line o2;
                               canary_line o3]),
         ran (ran (ran s2 l w3) h w4) n w5))
  /\ (forall e w3,
        check_output os l w2 = (Raised e, w3) ->
        absent_or_failed e ->
        check_security os (VStr p) s
        = (Returned (Py.join_nl [heading; note]), ran s2 l w3))
  /\ (forall o1 w3 e w4,
        check_output os l w2 = (Returned o1, w3) ->
        check_output os h w3 = (Raised e, w4) ->
        absent_or_failed e ->
        check_security os (VStr p) s
        = (Returned (Py.join_nl [heading; nx_line o1; note]),
           ran (ran s2 l w3) h w4))
  /\ (forall o1 w3 o2 w4 e w5,
        check_output os l w2 = (Returned o1, w3) ->
        check_output os h w3 = (Returned o2, w4) ->
        check_output os n w4 = (Raised e, w5) ->
        absent_or_failed e ->
        check_security os (VStr p) s
        = (Returned (Py.join_nl [heading; nx_line o1; pie_line o2; note]),
           ran (ran (ran s2 l w3) h w4) n w5)).
Proof.
  intros Hx Hc s2 heading note absent_or_failed nx_line pie_line canary_line
    l h n.
  pose proof (check_security_checksec os p s w1 _ w2 Hx Hc) as Hcs.
  simpl in Hcs. fold s2 in Hcs.
  repeat split.
  - intros o1 w3 o2 w4 o3 w5 H1 H2 H3. rewrite Hcs.
    unfold manual_checks, try_block, block_bind.
    rewrite (run_check_output _ _ s2 _ _ H1). simpl.
    rewrite (run_check_output _ _ (ran s2 l w3) _ _ H2). simpl.
    rewrite (run_check_output _ _ (ran (ran s2 l w3) h w4) _ _ H3).
    reflexivity.
  - intros e w3 H1 He. rewrite Hcs.
    unfold manual_checks, try_block, block_bind.
    rewrite (run_check_output _ _ s2 _ _ H1).
    destruct He as [[d' ->] | [d' ->]]; reflexivity.
  - intros o1 w3 e w4 H1 H2 He. rewrite Hcs.
    unfold manual_checks, try_block, block_bind.
    rewrite (run_check_output _ _ s2 _ _ H1). simpl.
    rewrite (run_check_output _ _ (ran s2 l w3) _ _ H2).
    destruct He as [[d' ->] | [d' ->]]; reflexivity.
  - intros o1 w3 o2 w4 e w5 H1 H2 H3 He. rewrite Hcs.
    unfold manual_checks, try_block, block_bind.
    rewrite (run_check_output _ _ s2 _ _ H1). simpl.
    rewrite (run_check_output _ _ (ran s2 l w3) _ _ H2). simpl.
    rewrite (run_check_output _ _ (ran (ran s2 l w3) h w4) _ _ H3).
    destruct He as [[d' ->] | [d' ->]]; reflexivity.
Qed.

End ManualChecks.

Lemma check_security_manual_witness :
  check_security Demo.binutils_only (VStr "/bin/ls") Demo.start
  = (Returned (Py.join_nl ["=== Security Features: ls ===" +:+ Py.nl;
                           "NX (No Execute): Enabled";
                           "PIE: Disabled";
                           "Stack Canary: Enabled"]),
     {| world := tt;
        spawned := [["checksec"; "--file=/bin/ls"];
                    ["readelf"; "-l"; "/bin/ls"];
                    ["readelf"; "-h"; "/bin/ls"];
                    ["nm"; "/bin/ls"]] |})
  /\ check_security (Demo.host Demo.a_file Demo.no_tools) (VStr "/bin/ls")
       Demo.start
     = (Returned ("=== Security Features: ls ===" +:+ Py.nl +:+ Py.nl +:+ Py.nl
                  +:+ "Note: Install 'checksec' or 'readelf' for detailed security analysis"),
        {| world := tt;
           spawned := [["checksec"; "--file=/bin/ls"];
                       ["readelf"; "-l"; "/bin/ls"]] |})
  /\ check_security
       (Demo.host Demo.a_file
          (Demo.answers
             [(["readelf"; "-l"; "/bin/ls"], Returned "GNU_STACK RW");
              (["readelf"; "-h"; "/bin/ls"],
               Returned "Type: DYN (Shared object file)")]))
       (VStr "/bin/ls") Demo.start
     = (Returned ("=== Security Features: ls ===" +:+ Py.nl +:+ Py.nl
                  +:+ "NX (No Execute): Enabled" +:+ Py.nl
                  +:+ "PIE: Enabled" +:+ Py.nl +:+ Py.nl
                  +:+ "Note: Install 'checksec' or 'readelf' for detailed security analysis"),
        {| world := tt;
           spawned := [["checksec"; "--file=/bin/ls"];
                       ["readelf"; "-l"; "/bin/ls"];
                       ["readelf"; "-h"; "/bin/ls"];
                       ["nm"; "/bin/ls"]] |}).
Proof.
  split; [| split].
  - pose proof (check_security_manual Demo.binutils_only "/bin/ls" Demo.start tt
                  "[Errno 2] No such file or directory: 'checksec'" tt
                  eq_refl eq_refl) as H.
    exact (proj1 H _ tt _ tt _ tt eq_refl eq_refl eq_refl).
  - pose proof (check_security_manual (Demo.host Demo.a_file Demo.no_tools)
                  "/bin/ls" Demo.start tt
                  "[Errno 2] No such file or directory: 'checksec'" tt
                  eq_refl eq_refl) as (_ & H & _).
    apply (H (FileNotFoundError "[Errno 2] No such file or directory: 'readelf'")
             tt eq_refl).
    left. eexists. reflexivity.
  - pose proof (check_security_manual
                  (Demo.host Demo.a_file
                     (Demo.answers
                        [(["readelf"; "-l"; "/bin/ls"], Returned "GNU_STACK RW");
                         (["readelf"; "-h"; "/bin/ls"],
                          Returned "Type: DYN (Shared object file)")]))
                  "/bin/ls" Demo.start tt
                  "[Errno 2] No such file or directory: 'checksec'" tt
                  eq_refl eq_refl) as (_ & _ & _ & H).
    apply (H "GNU_STACK RW" tt "Type: DYN (Shared object file)" tt
             (FileNotFoundError "[Errno 2] No such file or directory: 'nm'")
             tt eq_refl eq_refl eq_refl).
    left. eexists. reflexivity.
Defined.

(** ** The registry *)

(** C5.  [list_tools] is a constant: four descriptors, named
    [analyze_binary], [extract_strings], [get_file_info], [check_security] in
    that order, without repetition.  Every schema requires exactly
    ["file_path"]; the schema of [extract_strings] also declares
    ["min_length"], an integer with default 4 that is not required, and the
    other three declare nothing else.  The advertised names are exactly the
    names [call_tool] routes to a handler; any other name takes the
    ["Unknown tool"] branch. *)
Theorem list_tools_registry :
  length list_tools = 4
  /\ name <$> list_tools
     = ["analyze_binary"; "extract_strings"; "get_file_info"; "check_security"]
  /\ NoDup (name <$> list_tools)
  /\ Forall (fun t => schema_required (inputSchema t) = ["file_path"]) list_tools
  /\ (schema_arguments ∘ inputSchema) <$> list_tools
     = [["file_path"]; ["file_path"; "min_length"]; ["file_path"]; ["file_path"]]
  /\ (forall t, t ∈ list_tools -> name t = "extract_strings" ->
        (schema_property "min_length" (inputSchema t) ≫= json_field "type")
        = Some (JStr "integer")
        /\ (schema_property "min_length" (inputSchema t) ≫= json_field "default")
           = Some (JInt 4)
        /\ "min_length" ∉ schema_required (inputSchema t))
  /\ (forall nm, nm ∈ name <$> list_tools <-> is_Some (route nm))
  /\ (forall W (os : Host W) nm (arguments : gmap string value),
        match route nm with
        | Some op => dispatch os nm arguments = invoke os op arguments
        | None => dispatch os nm arguments = ret ("Unknown tool: " +:+ nm)
        end).
Proof.
  split; [reflexivity |]. split; [reflexivity |].
  split; [| split; [| split; [reflexivity | split; [| split]]]].
  - simpl. repeat constructor;
      rewrite ?elem_of_cons, elem_of_nil; intros H;
      repeat (destruct H as [H | H]; [discriminate H |]); exact H.
  - repeat constructor.
  - intros t Ht Hn. unfold list_tools in Ht.
    rewrite !elem_of_cons, elem_of_nil in Ht.
    destruct Ht as [-> | [-> | [-> | [-> | []]]]]; try discriminate Hn.
    split; [reflexivity |]. split; [reflexivity |].
    change (schema_required _) with ["file_path"].
    intros H. apply list_elem_of_In in H as [H | []]. discriminate H.
  - intros nm. symmetry. apply route_Some_iff.
  - intros W os nm arguments. unfold dispatch. destruct (route nm); reflexivity.
Qed.

Lemma list_tools_registry_witness :
  (schema_property "min_length"
     (inputSchema (default {| name := ""; description := ""; inputSchema := JObj [] |}
                     (list_tools !! 1%nat))) ≫= json_field "default")
  = Some (JInt 4).
Proof.
  destruct list_tools_registry as (_ & _ & _ & _ & _ & H & _).
  apply H; [| reflexivity].
  apply list_elem_of_further, list_elem_of_here.
Defined.

(** ** The listing of [extract_strings] *)

Section StripSplit.

Lemma app_cons (c : ascii) (a b : string) :
  String c a +:+ b = String c (a +:+ b).
Proof. reflexivity. Qed.

Lemma rstrip_cons (c : ascii) (a : string) :
  Py.rstrip (String c a)
  = match Py.rstrip a with
    | EmptyString =>
        if Py.is_space c then EmptyString else String c EmptyString
    | r => String c r
    end.
Proof. reflexivity. Qed.

Lemma rstrip_app (a b : string) :
  Py.rstrip b <> "" -> Py.rstrip (a +:+ b) = a +:+ Py.rstrip b.
Proof.
  intros Hb. induction a as [| c a IH]; [reflexivity |].
  rewrite !app_cons, rstrip_cons, IH.
  destruct (a +:+ Py.rstrip b) eqn:E; [| reflexivity].
  destruct a; simpl in E; [contradiction | discriminate].
Qed.

Lemma rstrip_line (l : string) :
  ends_with_nonspace l = true -> Py.rstrip (l +:+ Py.nl) = l /\ l <> "".
Proof.
  induction l as [| c l IH]; [discriminate |].
  intros H. split; [| discriminate].
  destruct l as [| c' l'].
  - simpl in *. apply negb_true_iff in H. rewrite H. reflexivity.
  - change (ends_with_nonspace (String c' l') = true) in H.
    destruct (IH H) as [E Hne].
    rewrite (app_cons c), rstrip_cons, E. reflexivity.
Qed.

Lemma join_nl_cons (l l' : string) (ls : list string) :
  Py.join_nl (l :: l' :: ls) = l +:+ Py.nl +:+ Py.join_nl (l' :: ls).
Proof. reflexivity. Qed.

Lemma rstrip_unlines (ls : list string) :
  ends_with_nonspace (List.last ls "") = true ->
  Py.rstrip (unlines ls) = Py.join_nl ls /\ Py.join_nl ls <> "".
Proof.
  induction ls as [| l ls IH]; [discriminate |].
  intros H. destruct ls as [| l' ls].
  - change (unlines [l]) with (l +:+ Py.nl).
    apply rstrip_line. exact H.
  - change (List.last (l :: l' :: ls) "") with (List.last (l' :: ls) "") in H.
    destruct (IH H) as [E Hne].
    rewrite join_nl_cons. split.
    + change (unlines (l :: l' :: ls))
        with (l +:+ (Py.nl +:+ unlines (l' :: ls))).
      assert (Py.rstrip (Py.nl +:+ unlines (l' :: ls))
              = Py.nl +:+ Py.join_nl (l' :: ls)) as E'.
      { unfold Py.nl at 1. rewrite app_cons, rstrip_cons.
        change ("" +:+ unlines (l' :: ls)) with (unlines (l' :: ls)).
        rewrite E.
        destruct (Py.join_nl (l' :: ls)); [contradiction | reflexivity]. }
      rewrite rstrip_app; rewrite E'; [reflexivity | discriminate].
    + destruct l; discriminate.
Qed.

Lemma lstrip_clean (l rest : string) :
  starts_with_nonspace l = true -> Py.lstrip (l +:+ rest) = l +:+ rest.
Proof.
  destruct l as [| c l]; [discriminate |]. simpl. intros H.
  apply negb_true_iff in H. rewrite H. reflexivity.
Qed.

Lemma split_nl_line (l : string) :
  no_newline l = true -> Py.split_nl l = [l].
Proof.
  induction l as [| c l IH]; [reflexivity |]. simpl.
  intros H. apply andb_true_iff in H as [Hc Hl].
  apply negb_true_iff in Hc. rewrite Hc, (IH Hl). reflexivity.
Qed.

Lemma split_nl_app (l rest : string) :
  no_newline l = true ->
  Py.split_nl (l +:+ Py.nl +:+ rest) = l :: Py.split_nl rest.
Proof.
  induction l as [| c l IH]; [reflexivity |]. simpl.
  intros H. apply andb_true_iff in H as [Hc Hl].
  apply negb_true_iff in Hc. rewrite Hc, (IH Hl). reflexivity.
Qed.

Lemma split_nl_join (ls : list string) :
  ls <> [] -> Forall (fun l => no_newline l = true) ls ->
  Py.split_nl (Py.join_nl ls) = ls.
Proof.
  induction ls as [| l ls IH]; [contradiction |].
  intros _ H. apply Forall_cons in H as [Hl Hls].
  destruct ls as [| l' ls].
  - apply split_nl_line. exact Hl.
  - rewrite join_nl_cons, split_nl_app by exact Hl.
    rewrite IH; [reflexivity | discriminate | exact Hls].
Qed.

(** [strip] followed by [split] gives back the lines a tool printed, as
    soon as there is a line, the first one starts with a visible character
    and the last one ends with one. *)
Lemma split_strip_unlines (ls : list string) :
  Forall (fun l => no_newline l = true) ls ->
  starts_with_nonspace (hd "" ls) = true ->
  ends_with_nonspace (List.last ls "") = true ->
  Py.split_nl (Py.strip (unlines ls)) = ls.
Proof.
  intros Hnl Hs He. unfold Py.strip.
  destruct ls as [| l ls]; [discriminate |].
  change (unlines (l :: ls)) with (l +:+ (Py.nl +:+ unlines ls)).
  rewrite lstrip_clean by exact Hs.
  change (l +:+ (Py.nl +:+ unlines ls)) with (unlines (l :: ls)).
  destruct (rstrip_unlines (l :: ls) He) as [-> _].
  apply split_nl_join; [discriminate | exact Hnl].
Qed.

End StripSplit.

Section ExtractStrings.

Context {W : Type} (os : Host W).

Implicit Types (s : state (W := W)) (p : string).

Lemma extract_strings_output p min_length s w1 out w2 :
  path_exists os p (world s) = (Returned true, w1) ->
  check_output os ["strings"; "-n"; str_value min_length; path_str os p] w1
  = (Returned out, w2) ->
  extract_strings os (VStr p) min_length s
  = (Returned (format_strings (Py.split_nl (Py.strip out))),
     ran (quiet s w1) ["strings"; "-n"; str_value min_length; path_str os p] w2).
Proof.
  intros Hx Hc. unfold extract_strings, bind, Path, ret.
  rewrite (exists_eq os _ _ _ _ Hx). simpl.
  unfold try_except, bind.
  rewrite (check_output_eq os _ (quiet s w1) _ _ Hc). reflexivity.
Qed.

(** When [strings] prints at least one line, the first one starting and
    the last one ending with a visible character, the response lists the
    first 100 lines and counts the rest, or lists all of them and states
    their number. *)
Lemma extract_strings_lists_lines p min_length s w1 (ls : list string) w2 :
  path_exists os p (world s) = (Returned true, w1) ->
  check_output os ["strings"; "-n"; str_value min_length; path_str os p] w1
  = (Returned (unlines ls), w2) ->
  Forall (fun l => no_newline l = true) ls ->
  starts_with_nonspace (hd "" ls) = true ->
  ends_with_nonspace (List.last ls "") = true ->
  exists t,
    extract_strings os (VStr p) min_length s
    = (Returned t,
       ran (quiet s w1) ["strings"; "-n"; str_value min_length; path_str os p] w2)
    /\ (100 < length ls ->
          t = "=== Strings Extracted (showing first 100 of "
                +:+ pretty (length ls) +:+ ") ===" +:+ Py.nl +:+ Py.nl
                +:+ Py.join_nl (take 100 ls)
                +:+ Py.nl +:+ Py.nl +:+ "... and "
                +:+ pretty (length ls - 100) +:+ " more strings"
          /\ length (take 100 ls) = 100)
    /\ (length ls <= 100 ->
          t = "=== Strings Extracted (" +:+ pretty (length ls)
                +:+ " total) ===" +:+ Py.nl +:+ Py.nl +:+ Py.join_nl ls).
Proof.
  intros Hx Hc Hnl Hs He. eexists. split.
  - rewrite (extract_strings_output _ _ _ _ _ _ Hx Hc).
    rewrite (split_strip_unlines ls Hnl Hs He). reflexivity.
  - unfold format_strings. split; intros Hn.
    + apply Nat.ltb_lt in Hn. rewrite Hn. split; [reflexivity |].
      apply Nat.ltb_lt in Hn. rewrite length_take. lia.
    + apply Nat.ltb_ge in Hn. rewrite Hn. reflexivity.
Qed.

(** C4.  When [strings] succeeds and prints nothing, the response of
    [extract_strings] announces one string, not zero: the empty text is
    split into one empty line. *)
Theorem extract_strings_zero_lines p min_length s w1 w2 :
  path_exists os p (world s) = (Returned true, w1) ->
  check_output os ["strings"; "-n"; str_value min_length; path_str os p] w1
  = (Returned (unlines []), w2) ->
  extract_strings os (VStr p) min_length s
  = (Returned ("=== Strings Extracted (1 total) ===" +:+ Py.nl +:+ Py.nl),
     ran (quiet s w1) ["strings"; "-n"; str_value min_length; path_str os p] w2)
  /\ "=== Strings Extracted (1 total) ===" +:+ Py.nl +:+ Py.nl
     <> "=== Strings Extracted (" +:+ pretty (length (@nil string))
          +:+ " total) ===" +:+ Py.nl +:+ Py.nl +:+ Py.join_nl [].
Proof.
  intros Hx Hc. split.
  - rewrite (extract_strings_output _ _ _ _ _ _ Hx Hc). reflexivity.
  - vm_compute. discriminate.
Qed.

End ExtractStrings.

Lemma extract_strings_zero_lines_witness :
  call_tool Demo.no_strings "extract_strings"
    {[ "file_path" := VStr "/bin/ls" ]} Demo.start
  = (Returned [block ("=== Strings Extracted (1 total) ===" +:+ Py.nl +:+ Py.nl)],
     {| world := tt; spawned := [["strings"; "-n"; "4"; "/bin/ls"]] |}).
Proof.
  apply call_tool_returned.
  apply (extract_strings_zero_lines Demo.no_strings "/bin/ls" (VInt 4)
           Demo.start tt tt); reflexivity.
Defined.

Lemma extract_strings_lists_lines_witness :
  exists t,
    extract_strings Demo.two_strings (VStr "/bin/ls") (VInt 4) Demo.start
    = (Returned t,
       {| world := tt; spawned := [["strings"; "-n"; "4"; "/bin/ls"]] |})
    /\ t = "=== Strings Extracted (2 total) ===" +:+ Py.nl +:+ Py.nl
           +:+ "/lib64/ld-linux-x86-64.so.2" +:+ Py.nl +:+ "libc.so.6".
Proof.
  destruct (extract_strings_lists_lines Demo.two_strings "/bin/ls" (VInt 4)
              Demo.start tt ["/lib64/ld-linux-x86-64.so.2"; "libc.so.6"] tt
              eq_refl eq_refl) as (t & Ht & _ & Hle).
  - repeat constructor.
  - reflexivity.
  - reflexivity.
  - exists t. split; [exact Ht |]. apply Hle. simpl. lia.
Defined.

(** A first line made of blanks disappears from the listing and from the
    count. *)
Example extract_strings_blank_first_line :
  Py.split_nl (Py.strip (unlines ["    "; "abcd"])) = ["abcd"].
Proof. reflexivity. Qed.

(** ** A run of [analyze_binary] *)

(** [file] answers, [readelf] is not installed. *)
Example analyze_binary_ex :
  (analyze_binary
     (Demo.host Demo.a_file
        (Demo.answers [(["file"; "/bin/ls"],
                        Returned ("/bin/ls: ELF 64-bit LSB pie executable" +:+ Py.nl))]))
     (VStr "/bin/ls") Demo.start).1
  = Returned (Py.join_nl
      ["=== Binary Analysis: ls ===" +:+ Py.nl;
       "File Size: 142,312 bytes (138.98 KB)";
       "Permissions: 755";
       Py.nl +:+ "File Type:" +:+ Py.nl +:+ "/bin/ls: ELF 64-bit LSB pie executable";
       Py.nl +:+ "(readelf not available for detailed ELF analysis)"]).
Proof. vm_compute. reflexivity. Qed.

(** * Further properties of the dispatcher and the handlers *)

Lemma route_name (nm : string) (op : operation) :
  route nm = Some op ->
  nm = match op with
       | AnalyzeBinary => "analyze_binary"
       | ExtractStrings => "extract_strings"
       | GetFileInfo => "get_file_info"
       | CheckSecurity => "check_security"
       end.
Proof.
  unfold route.
  repeat match goal with
         | |- context [String.eqb nm ?c] =>
             destruct (String.eqb_spec nm c) as [-> | ?]
         end; intros H; inversion H; reflexivity.
Qed.

Section Arguments.

Context {W : Type} (os : Host W).

(** X1.  [call_tool] reads at most two keys of the mapping: two mappings
    with the same ["file_path"] (and, for [extract_strings], the same
    ["min_length"]) are treated alike, whatever else they hold. *)
Theorem call_tool_reads_two_keys nm (args1 args2 : gmap string value) :
  args1 !! "file_path" = args2 !! "file_path" ->
  (nm = "extract_strings" -> args1 !! "min_length" = args2 !! "min_length") ->
  call_tool os nm args1 = call_tool os nm args2.
Proof.
  intros Hfp Hml. unfold call_tool, dispatch.
  destruct (route nm) as [op |] eqn:Hop; [| reflexivity].
  apply route_name in Hop.
  destruct op; unfold invoke, getitem, dict_get; rewrite Hfp;
    try reflexivity.
  rewrite (Hml Hop). reflexivity.
Qed.

(** X2.  A ["file_path"] that is not a string makes each of the four
    operations answer with the dispatcher's error block for the [TypeError]
    of [Path(...)], whose message is the one of the installed [pathlib];
    the file system is not consulted and no command is started. *)
Theorem call_tool_non_string_path nm (arguments : gmap string value) v
    (s : state) :
  nm ∈ tool_names ->
  arguments !! "file_path" = Some v ->
  (forall p, v <> VStr p) ->
  call_tool os nm arguments s
  = (Returned [block ("Error executing " +:+ nm +:+ ": "
       +:+ path_type_error os (type_name_of v))], s).
Proof.
  intros Hin Hfp Hv. apply route_Some_iff in Hin as [op Hop].
  set (e := TypeError (path_type_error os (type_name_of v))).
  assert (dispatch os nm arguments s = (Raised e, s)) as D.
  { unfold dispatch. rewrite Hop, (invoke_file_path os op _ _ Hfp).
    destruct v as [p | | | |]; [destruct (Hv p eq_refl) | ..];
      destruct op; reflexivity. }
  rewrite (call_tool_raised os _ _ _ _ _ D). reflexivity.
Qed.

End Arguments.

Lemma call_tool_reads_two_keys_witness :
  call_tool (Demo.host Demo.a_file Demo.no_tools) "get_file_info"
    {[ "file_path" := VStr "/bin/ls" ]}
  = call_tool (Demo.host Demo.a_file Demo.no_tools) "get_file_info"
      (<["min_length" := VInt 9]> (<["verbose" := VBool true]>
         {[ "file_path" := VStr "/bin/ls" ]})).
Proof.
  apply (call_tool_reads_two_keys (Demo.host Demo.a_file Demo.no_tools)
           "get_file_info").
  - reflexivity.
  - discriminate.
Defined.

Lemma call_tool_non_string_path_witness :
  call_tool (Demo.host Demo.a_file Demo.no_tools) "analyze_binary"
    {[ "file_path" := VInt 7 ]} Demo.start
  = (Returned [block "Error executing analyze_binary: expected str, bytes or os.PathLike object, not int"],
     Demo.start).
Proof.
  apply (call_tool_non_string_path (Demo.host Demo.a_file Demo.no_tools)
           "analyze_binary" {[ "file_path" := VInt 7 ]} (VInt 7) Demo.start).
  - apply list_elem_of_here.
  - reflexivity.
  - discriminate.
Defined.

(** ** The commands a call can start *)

Section Commands.

Context {W : Type} (os : Host W).

Implicit Types (s : state (W := W)) (p : string).

Ltac ask_host :=
  match goal with
  | |- context [path_exists ?o ?p ?w] =>
      destruct (path_exists o p w) as [[[|] | ?] ?]
  | |- context [path_stat ?o ?p ?w] =>
      destruct (path_stat o p w) as [[? | ?] ?]
  | |- context [check_output ?o ?a ?w] =>
      destruct (check_output o a w) as [[? | []] ?]
  | |- context [Py.contains "ELF" ?t] => destruct (Py.contains "ELF" t)
  end; simpl.

Ltac log_done :=
  unfold started; simpl; rewrite <- ?app_assoc;
  first
    [ exists []; split; [by rewrite app_nil_r | apply prefix_nil]
    | eexists; split; [reflexivity | eexists; reflexivity] ].

Lemma analyze_binary_started p s :
  started s (analyze_binary os (VStr p) s).2 (commands os AnalyzeBinary p VNone).
Proof.
  unfold analyze_binary, bind, Path, ret, exists_, stat, lift, try_except,
    bind, ret, subprocess_check_output, local, raise. simpl.
  repeat ask_host; log_done.
Qed.

Lemma extract_strings_started p m s :
  started s (extract_strings os (VStr p) m s).2 (commands os ExtractStrings p m).
Proof.
  unfold extract_strings, bind, Path, ret, exists_, lift, try_except,
    bind, ret, subprocess_check_output, raise. simpl.
  repeat ask_host; log_done.
Qed.

Lemma get_file_info_started p s :
  started s (get_file_info os (VStr p) s).2 (commands os GetFileInfo p VNone).
Proof.
  unfold get_file_info, bind, Path, ret, exists_, lift, try_except,
    bind, ret, subprocess_check_output, raise. simpl.
  repeat ask_host; log_done.
Qed.

Lemma check_security_started p s :
  started s (check_security os (VStr p) s).2 (commands os CheckSecurity p VNone).
Proof.
  unfold check_security, manual_checks, try_block, block_bind, run, append,
    return_joined, bind, Path, ret, exists_, lift, try_except,
    bind, ret, subprocess_check_output, raise. simpl.
  repeat ask_host; log_done.
Qed.

Lemma call_tool_state nm (arguments : gmap string value) s :
  (call_tool os nm arguments s).2 = (dispatch os nm arguments s).2.
Proof.
  unfold call_tool, try_except, bind.
  destruct (dispatch os nm arguments s) as [[r | e] s']; reflexivity.
Qed.

Lemma started_nothing s : started s s [].
Proof. exists []. split; [by rewrite app_nil_r | apply prefix_nil]. Qed.

Lemma commands_programs op p m :
  Forall (fun argv => hd "" argv ∈ programs) (commands os op p m)
  /\ length (commands os op p m) <= 4.
Proof.
  destruct op; simpl; (split; [| lia]);
    repeat constructor.
Qed.

(** X3.  Whatever the name, the mapping and the answers of the host, a call
    starts only commands of the fixed list of its operation for the given
    path, in the order of that list and each at most once: at most four,
    and only the programs [file], [strings], [readelf], [nm], [checksec].
    An unknown name, a missing or a non-string ["file_path"] starts none. *)
Theorem call_tool_commands nm (arguments : gmap string value) s :
  exists new,
    spawned (call_tool os nm arguments s).2 = spawned s ++ new
    /\ new `prefix_of`
         match route nm, arguments !! "file_path" with
         | Some op, Some (VStr p) =>
             commands os op p (dict_get arguments "min_length" (VInt 4))
         | _, _ => []
         end
    /\ length new <= 4
    /\ Forall (fun argv => hd "" argv ∈ programs) new.
Proof.
  rewrite call_tool_state.
  assert (started s (dispatch os nm arguments s).2
            match route nm, arguments !! "file_path" with
            | Some op, Some (VStr p) =>
                commands os op p (dict_get arguments "min_length" (VInt 4))
            | _, _ => []
            end) as (new & Hlog & Hpre).
  { unfold dispatch. destruct (route nm) as [op |]; [| apply started_nothing].
    destruct (arguments !! "file_path") as [v |] eqn:Hfp.
    - rewrite (invoke_file_path os op _ _ Hfp).
      destruct v as [p | | | |];
        [| destruct op; apply started_nothing ..].
      destruct op;
        [apply analyze_binary_started | apply extract_strings_started
        | apply get_file_info_started | apply check_security_started].
    - rewrite (invoke_missing_file_path os op _ _ Hfp). apply started_nothing. }
  exists new. split; [exact Hlog |]. split; [exact Hpre |].
  destruct Hpre as [rest Hrest].
  destruct (route nm) as [op |];
    [destruct (arguments !! "file_path") as [[p | | | |] |] |];
    try (symmetry in Hrest; apply app_eq_nil in Hrest as [-> _];
         split; [simpl; lia | constructor]).
  destruct (commands_programs op p (dict_get arguments "min_length" (VInt 4)))
    as [Hall Hlen].
  rewrite Hrest in Hall, Hlen. rewrite length_app in Hlen.
  apply Forall_app in Hall as [Hall _]. split; [lia | exact Hall].
Qed.

End Commands.

(** ** The summary of [analyze_binary] *)

Section Analysis.

Context {W : Type} (os : Host W).

Implicit Types (s : state (W := W)) (p : string).

Lemma prefix_app_l (n a b : string) :
  String.prefix n a = true -> String.prefix n (a +:+ b) = true.
Proof.
  revert a. induction n as [| c n IH]; intros a;
    [intros _; destruct (a +:+ b); reflexivity |].
  destruct a as [| c' a]; [discriminate |]. simpl.
  destruct (ascii_dec c c'); [apply IH | discriminate].
Qed.

Lemma contains_app_l (n a b : string) :
  Py.contains n a = true -> Py.contains n (a +:+ b) = true.
Proof.
  induction a as [| c a IH].
  - simpl. rewrite orb_false_r. intros H.
    destruct n; [destruct b; reflexivity | discriminate].
  - change (String c a +:+ b) with (String c (a +:+ b)).
    change (Py.contains n (String c a))
      with (String.prefix n (String c a) || Py.contains n a).
    change (Py.contains n (String c (a +:+ b)))
      with (String.prefix n (String c (a +:+ b)) || Py.contains n (a +:+ b)).
    intros H. apply orb_true_iff in H as [H | H]; apply orb_true_iff.
    + left. apply (prefix_app_l n (String c a) b H).
    + right. apply IH, H.
Qed.

Lemma analyze_binary_probed p s w1 st w2 out w3 :
  path_exists os p (world s) = (Returned true, w1) ->
  path_stat os p w1 = (Returned st, w2) ->
  check_output os ["file"; path_str os p] w2 = (Returned out, w3) ->
  let s3 := ran (quiet s w2) ["file"; path_str os p] w3 in
  let readelf := ["readelf"; "-h"; path_str os p] in
  analyze_binary os (VStr p) s
  = if Py.contains "ELF" out then
      match check_output os readelf w3 with
      | (Returned header, w4) =>
          (Returned (Py.join_nl (analysis_lines os p st out ++
             [Py.nl +:+ "ELF Header:" +:+ Py.nl +:+ header])),
           ran s3 readelf w4)
      | (Raised e, w4) =>
          if probe_failed e then
            (Returned (Py.join_nl (analysis_lines os p st out ++
               [Py.nl +:+ "(readelf not available for detailed ELF analysis)"])),
             ran s3 readelf w4)
          else (Raised e, ran s3 readelf w4)
      end
    else (Returned (Py.join_nl (analysis_lines os p st out)), s3).
Proof.
  intros Hx Hs Hc. cbv zeta.
  unfold analyze_binary, bind, Path, ret.
  rewrite (exists_eq os _ _ _ _ Hx). simpl.
  rewrite (stat_eq os _ (quiet s w1) _ _ Hs). simpl.
  unfold try_except, bind.
  rewrite (check_output_eq os _ (quiet (quiet s w1) w2) _ _ Hc). simpl.
  destruct (Py.contains "ELF" out); [| reflexivity].
  unfold subprocess_check_output. simpl.
  destruct (check_output os ["readelf"; "-h"; path_str os p] w3)
    as [[header | e] w4]; [reflexivity |].
  simpl. unfold probe_failed. destruct e; reflexivity.
Qed.

(** X4.  Once the [file] probe has answered, [analyze_binary] runs
    [readelf -h] exactly when the raw answer contains ["ELF"].  Without it
    the summary ends with the file type and [file] is the only command
    started; with it the summary ends with the header dump, or with a note
    when [readelf] is missing or fails, and the handler raises only when
    [readelf] raises something else. *)
Theorem analyze_binary_summary p s w1 st w2 out w3 :
  path_exists os p (world s) = (Returned true, w1) ->
  path_stat os p w1 = (Returned st, w2) ->
  check_output os ["file"; path_str os p] w2 = (Returned out, w3) ->
  let s3 := ran (quiet s w2) ["file"; path_str os p] w3 in
  let readelf := ["readelf"; "-h"; path_str os p] in
  (Py.contains "ELF" out = false ->
     analyze_binary os (VStr p) s
     = (Returned (Py.join_nl (analysis_lines os p st out)), s3)
     /\ spawned s3 = spawned s ++ [["file"; path_str os p]])
  /\ (Py.contains "ELF" out = true ->
      forall r w4, check_output os readelf w3 = (r, w4) ->
        analyze_binary os (VStr p) s
        = (match r with
           | Returned header =>
               Returned (Py.join_nl (analysis_lines os p st out ++
                 [Py.nl +:+ "ELF Header:" +:+ Py.nl +:+ header]))
           | Raised e =>
               if probe_failed e then
                 Returned (Py.join_nl (analysis_lines os p st out ++
                   [Py.nl +:+ "(readelf not available for detailed ELF analysis)"]))
               else Raised e
           end, ran s3 readelf w4)
        /\ spawned (ran s3 readelf w4)
           = spawned s ++ [["file"; path_str os p]; readelf]).
Proof.
  intros Hx Hs Hc s3 readelf.
  pose proof (analyze_binary_probed p s w1 st w2 out w3 Hx Hs Hc) as H.
  simpl in H. fold s3 readelf in H. split.
  - intros He. rewrite He in H. split; [exact H | reflexivity].
  - intros He r w4 Hr. rewrite He, Hr in H. split.
    + rewrite H. destruct r as [header | e]; [reflexivity |].
      destruct (probe_failed e); reflexivity.
    + simpl. rewrite <- app_assoc. reflexivity.
Qed.

(** X5.  [file] prints the path before the type, and the test for ["ELF"]
    looks at the whole answer: when the path itself contains ["ELF"],
    [readelf -h] is started whatever the type of the file. *)
Theorem analyze_binary_elf_in_path p s w1 st w2 descr w3 :
  path_exists os p (world s) = (Returned true, w1) ->
  path_stat os p w1 = (Returned st, w2) ->
  check_output os ["file"; path_str os p] w2
  = (Returned (path_str os p +:+ ": " +:+ descr), w3) ->
  Py.contains "ELF" (path_str os p) = true ->
  ["readelf"; "-h"; path_str os p] ∈ spawned (analyze_binary os (VStr p) s).2.
Proof.
  intros Hx Hs Hc He.
  rewrite (analyze_binary_probed p s w1 st w2 _ w3 Hx Hs Hc).
  rewrite (contains_app_l _ _ _ He).
  destruct (check_output os ["readelf"; "-h"; path_str os p] w3)
    as [[header | e] w4]; [| destruct (probe_failed e)];
    simpl; apply elem_of_app; right; apply list_elem_of_here.
Qed.

(** X6.  When the file disappears between [exists()] and [stat()], or
    [stat()] fails otherwise, [analyze_binary] raises that exception before
    any command is started, and the caller gets the dispatcher's error
    block. *)
Theorem analyze_binary_stat_raises p s w1 e w2
    (arguments : gmap string value) :
  path_exists os p (world s) = (Returned true, w1) ->
  path_stat os p w1 = (Raised e, w2) ->
  arguments !! "file_path" = Some (VStr p) ->
  analyze_binary os (VStr p) s = (Raised e, quiet s w2)
  /\ call_tool os "analyze_binary" arguments s
     = (Returned [block ("Error executing analyze_binary: " +:+ str_exn e)],
        quiet s w2).
Proof.
  intros Hx Hs Hfp.
  assert (analyze_binary os (VStr p) s = (Raised e, quiet s w2)) as Ha.
  { unfold analyze_binary, bind, Path, ret.
    rewrite (exists_eq os _ _ _ _ Hx). simpl.
    rewrite (stat_eq os _ (quiet s w1) _ _ Hs). reflexivity. }
  split; [exact Ha |].
  assert (dispatch os "analyze_binary" arguments s = (Raised e, quiet s w2)) as D.
  { change (invoke os AnalyzeBinary arguments s = (Raised e, quiet s w2)).
    rewrite (invoke_file_path os AnalyzeBinary _ _ Hfp). exact Ha. }
  rewrite (call_tool_raised os _ _ _ _ _ D). reflexivity.
Qed.

End Analysis.

Lemma analyze_binary_summary_witness :
  let os := Demo.host Demo.a_file
              (Demo.answers [(["file"; "/bin/ls"],
                              Returned ("/bin/ls: data" +:+ Py.nl))]) in
  analyze_binary os (VStr "/bin/ls") Demo.start
  = (Returned (Py.join_nl
       ["=== Binary Analysis: ls ===" +:+ Py.nl;
        "File Size: 142,312 bytes (138.98 KB)";
        "Permissions: 755";
        Py.nl +:+ "File Type:" +:+ Py.nl +:+ "/bin/ls: data"]),
     {| world := tt; spawned := [["file"; "/bin/ls"]] |}).
Proof.
  intros os.
  pose proof (analyze_binary_summary os "/bin/ls" Demo.start tt
                {| st_size := 142312; st_mode := 33261 |} tt
                ("/bin/ls: data" +:+ Py.nl) tt eq_refl eq_refl eq_refl) as [H _].
  destruct (H eq_refl) as [Ha _]. rewrite Ha. vm_compute. reflexivity.
Defined.

Lemma analyze_binary_elf_in_path_witness :
  ["readelf"; "-h"; "/tmp/SHELF.txt"]
  ∈ spawned (analyze_binary Demo2.notes_host (VStr "/tmp/SHELF.txt") Demo.start).2.
Proof.
  apply (analyze_binary_elf_in_path Demo2.notes_host "/tmp/SHELF.txt" Demo.start
           tt {| st_size := 12; st_mode := 33188 |} tt ("ASCII text" +:+ Py.nl) tt);
    reflexivity.
Defined.

Lemma analyze_binary_stat_raises_witness :
  let os := {| path_type_error := Demo.type_error_3_11;
               path_str := fun p => p;
               path_name := Demo.basename;
               path_exists := fun _ w => (Returned true, w);
               path_stat := fun p w =>
                 (Raised (FileNotFoundError
                    ("[Errno 2] No such file or directory: '" +:+ p +:+ "'")), w);
               check_output := fun argv (w : unit) => (Demo.no_tools argv, w) |} in
  call_tool os "analyze_binary" {[ "file_path" := VStr "/tmp/gone" ]} Demo.start
  = (Returned [block "Error executing analyze_binary: [Errno 2] No such file or directory: '/tmp/gone'"],
     Demo.start).
Proof.
  intros os.
  apply (analyze_binary_stat_raises os "/tmp/gone" Demo.start tt
           (FileNotFoundError "[Errno 2] No such file or directory: '/tmp/gone'")
           tt {[ "file_path" := VStr "/tmp/gone" ]}); reflexivity.
Defined.

(** ** The answers of [extract_strings] *)

Section Strings.

Context {W : Type} (os : Host W).

Implicit Types (s : state (W := W)) (p : string).

Lemma split_nl_cons (t : string) : exists l ls, Py.split_nl t = l :: ls.
Proof.
  destruct t as [| c t]; [by exists "", [] |]. simpl.
  destruct (Ascii.eqb c "010"); [by eexists _, _ |].
  destruct (Py.split_nl t); by eexists _, _.
Qed.

Lemma prefix_app_same (a x y : string) :
  String.prefix x y = true -> String.prefix (a +:+ x) (a +:+ y) = true.
Proof.
  intros H. induction a as [| c a IH]; [exact H |]. simpl.
  destruct (ascii_dec c c); [exact IH | contradiction].
Qed.

Lemma prefix_app_r (h r : string) : String.prefix h (h +:+ r) = true.
Proof.
  induction h as [| c h IH]; [destruct r; reflexivity |]. simpl.
  destruct (ascii_dec c c); [exact IH | contradiction].
Qed.

Lemma length_split_nl (t : string) :
  length (Py.split_nl t) = S (count_newlines t).
Proof.
  induction t as [| c t IH]; [reflexivity |]. simpl.
  destruct (Ascii.eqb c "010"); simpl; [by rewrite IH |].
  destruct (Py.split_nl t); [discriminate IH | exact IH].
Qed.

Lemma join_split_nl (t : string) : Py.join_nl (Py.split_nl t) = t.
Proof.
  induction t as [| c t IH]; [reflexivity |]. simpl.
  destruct (Ascii.eqb_spec c "010") as [-> | Hc].
  - destruct (split_nl_cons t) as (l & ls & E). rewrite E in *.
    rewrite join_nl_cons, IH. reflexivity.
  - destruct (split_nl_cons t) as (l & ls & E). rewrite E in *.
    rewrite <- IH. destruct ls; reflexivity.
Qed.

(** X7.  When [strings] fails, [extract_strings] reports it as text: a
    nonzero exit status gives ["Error extracting strings: ..."], a missing
    executable gives the advice to install binutils.  Any other exception
    leaves the handler. *)
Theorem extract_strings_tool_failure p min_length s w1 e w2 :
  path_exists os p (world s) = (Returned true, w1) ->
  check_output os ["strings"; "-n"; str_value min_length; path_str os p] w1
  = (Raised e, w2) ->
  extract_strings os (VStr p) min_length s
  = (match e with
     | CalledProcessError d => Returned ("Error extracting strings: " +:+ d)
     | FileNotFoundError _ =>
         Returned "Error: 'strings' command not found. Install binutils package."
     | _ => Raised e
     end,
     ran (quiet s w1) ["strings"; "-n"; str_value min_length; path_str os p] w2).
Proof.
  intros Hx Hc. unfold extract_strings, bind, Path, ret.
  rewrite (exists_eq os _ _ _ _ Hx). simpl.
  unfold try_except, bind.
  rewrite (check_output_eq os _ (quiet s w1) _ _ Hc).
  destruct e; reflexivity.
Qed.

(** X8.  When [strings] answers, the total in the heading is one more than
    the number of newlines of the stripped answer, so it is never zero; and
    when that total is at most 100, the heading is followed by the stripped
    answer itself, character for character. *)
Theorem extract_strings_total p min_length s w1 out w2 :
  path_exists os p (world s) = (Returned true, w1) ->
  check_output os ["strings"; "-n"; str_value min_length; path_str os p] w1
  = (Returned out, w2) ->
  let total := S (count_newlines (Py.strip out)) in
  exists t,
    extract_strings os (VStr p) min_length s
    = (Returned t,
       ran (quiet s w1) ["strings"; "-n"; str_value min_length; path_str os p] w2)
    /\ (total <= 100 ->
          t = "=== Strings Extracted (" +:+ pretty total +:+ " total) ==="
                +:+ Py.nl +:+ Py.nl +:+ Py.strip out)
    /\ (100 < total ->
          String.prefix ("=== Strings Extracted (showing first 100 of "
                           +:+ pretty total +:+ ") ===") t = true).
Proof.
  intros Hx Hc total. eexists. split.
  - apply (extract_strings_output os _ _ _ _ _ _ Hx Hc).
  - unfold format_strings. rewrite length_split_nl. fold total. split; intros Hn.
    + apply Nat.ltb_ge in Hn. rewrite Hn, join_split_nl. reflexivity.
    + apply Nat.ltb_lt in Hn. rewrite Hn.
      apply prefix_app_same, prefix_app_same, prefix_app_r.
Qed.

End Strings.

Lemma extract_strings_tool_failure_witness :
  extract_strings Demo2.strings_fails (VStr "/bin/ls") (VInt 4) Demo.start
  = (Returned "Error extracting strings: Command '['strings', '-n', '4', '/bin/ls']' returned non-zero exit status 1.",
     {| world := tt; spawned := [["strings"; "-n"; "4"; "/bin/ls"]] |}).
Proof.
  apply (extract_strings_tool_failure Demo2.strings_fails "/bin/ls" (VInt 4)
           Demo.start tt
           (Demo.exit_status "['strings', '-n', '4', '/bin/ls']" "1") tt);
    reflexivity.
Defined.

Lemma extract_strings_total_witness :
  exists t,
    extract_strings Demo.two_strings (VStr "/bin/ls") (VInt 4) Demo.start
    = (Returned t,
       {| world := tt; spawned := [["strings"; "-n"; "4"; "/bin/ls"]] |})
    /\ t = "=== Strings Extracted (2 total) ===" +:+ Py.nl +:+ Py.nl
           +:+ "/lib64/ld-linux-x86-64.so.2" +:+ Py.nl +:+ "libc.so.6".
Proof.
  destruct (extract_strings_total Demo.two_strings "/bin/ls" (VInt 4)
              Demo.start tt
              (unlines ["/lib64/ld-linux-x86-64.so.2"; "libc.so.6"]) tt
              eq_refl eq_refl) as (t & Ht & Hle & _).
  exists t. split; [exact Ht |]. apply Hle. vm_compute. lia.
Defined.

(** ** The answers of [get_file_info] and [check_security] *)

Section Answers.

Context {W : Type} (os : Host W).

Implicit Types (s : state (W := W)) (p : string).

(** X9.  On an existing file the caller of [get_file_info] receives
    ["File Info: "] and the stripped answer of [file -b]; a nonzero exit
    status is reported by the handler as ["Error: ..."]; but a missing
    [file] executable is not handled there, it reaches the caller as the
    dispatcher's ["Error executing get_file_info: ..."]. *)
Theorem get_file_info_answers p s w1 r w2 (arguments : gmap string value) :
  path_exists os p (world s) = (Returned true, w1) ->
  check_output os ["file"; "-b"; path_str os p] w1 = (r, w2) ->
  arguments !! "file_path" = Some (VStr p) ->
  call_tool os "get_file_info" arguments s
  = (Returned [block
       match r with
       | Returned output => "File Info: " +:+ Py.strip output
       | Raised (CalledProcessError d) => "Error: " +:+ d
       | Raised e => "Error executing get_file_info: " +:+ str_exn e
       end],
     ran (quiet s w1) ["file"; "-b"; path_str os p] w2)
  /\ (forall e, r = Raised e -> is_CalledProcessError e = false ->
        get_file_info os (VStr p) s
        = (Raised e, ran (quiet s w1) ["file"; "-b"; path_str os p] w2)).
Proof.
  intros Hx Hc Hfp.
  assert (get_file_info os (VStr p) s
          = (file_info_text p (Returned true) r,
             ran (quiet s w1) ["file"; "-b"; path_str os p] w2)) as Hg.
  { unfold get_file_info, bind, Path, ret.
    rewrite (exists_eq os _ _ _ _ Hx). simpl.
    unfold try_except, bind.
    rewrite (check_output_eq os _ (quiet s w1) _ _ Hc).
    destruct r as [out | []]; reflexivity. }
  assert (dispatch os "get_file_info" arguments s
          = (file_info_text p (Returned true) r,
             ran (quiet s w1) ["file"; "-b"; path_str os p] w2)) as D.
  { change (invoke os GetFileInfo arguments s
            = (file_info_text p (Returned true) r,
               ran (quiet s w1) ["file"; "-b"; path_str os p] w2)).
    rewrite (invoke_file_path os GetFileInfo _ _ Hfp). exact Hg. }
  split.
  - destruct r as [out | e]; simpl in D.
    + rewrite (call_tool_returned os _ _ _ _ _ D). reflexivity.
    + destruct e; simpl in D;
        first [ rewrite (call_tool_returned os _ _ _ _ _ D); reflexivity
              | rewrite (call_tool_raised os _ _ _ _ _ D); reflexivity ].
  - intros e -> He. rewrite Hg. destruct e; try reflexivity. discriminate He.
Qed.

(** X10.  When [checksec] is installed and succeeds, the report of
    [check_security] is the heading line followed by the output of
    [checksec] as it is, and [checksec] is the only command started:
    [readelf] and [nm] are not run. *)
Theorem check_security_checksec_answers p s w1 out w2
    (arguments : gmap string value) :
  path_exists os p (world s) = (Returned true, w1) ->
  check_output os ["checksec"; "--file=" +:+ path_str os p] w1
  = (Returned out, w2) ->
  arguments !! "file_path" = Some (VStr p) ->
  let s' := ran (quiet s w1) ["checksec"; "--file=" +:+ path_str os p] w2 in
  call_tool os "check_security" arguments s
  = (Returned [block (security_header os p +:+ Py.nl +:+ out)], s')
  /\ spawned s' = spawned s ++ [["checksec"; "--file=" +:+ path_str os p]].
Proof.
  intros Hx Hc Hfp s'.
  pose proof (check_security_checksec os p s w1 _ w2 Hx Hc) as Hcs.
  simpl in Hcs. fold s' in Hcs. split; [| reflexivity].
  apply call_tool_returned.
  change (invoke os CheckSecurity arguments s
          = (Returned (security_header os p +:+ Py.nl +:+ out), s')).
  rewrite (invoke_file_path os CheckSecurity _ _ Hfp), Hcs. reflexivity.
Qed.

End Answers.

Lemma get_file_info_answers_witness :
  call_tool (Demo.host Demo.a_file Demo.no_tools) "get_file_info"
    {[ "file_path" := VStr "/bin/ls" ]} Demo.start
  = (Returned [block "Error executing get_file_info: [Errno 2] No such file or directory: 'file'"],
     {| world := tt; spawned := [["file"; "-b"; "/bin/ls"]] |}).
Proof.
  apply (get_file_info_answers (Demo.host Demo.a_file Demo.no_tools) "/bin/ls"
           Demo.start tt
           (Raised (FileNotFoundError "[Errno 2] No such file or directory: 'file'"))
           tt {[ "file_path" := VStr "/bin/ls" ]}); reflexivity.
Defined.

Lemma check_security_checksec_answers_witness :
  call_tool Demo2.checksec_host "check_security"
    {[ "file_path" := VStr "/bin/ls" ]} Demo.start
  = (Returned [block ("=== Security Features: ls ===" +:+ Py.nl +:+ Py.nl
                      +:+ "RELRO: Full  NX: enabled  PIE: enabled" +:+ Py.nl)],
     {| world := tt; spawned := [["checksec"; "--file=/bin/ls"]] |}).
Proof.
  apply (check_security_checksec_answers Demo2.checksec_host "/bin/ls"
           Demo.start tt ("RELRO: Full  NX: enabled  PIE: enabled" +:+ Py.nl) tt
           {[ "file_path" := VStr "/bin/ls" ]}); reflexivity.
Defined.

(** ** More on the manual security checks *)

Section ManualChecksMore.

Context {W : Type} (os : Host W).

Implicit Types (s : state (W := W)) (p : string).

Lemma prefix_cons (c c' : ascii) (n t : string) :
  String.prefix (String c n) (String c' t)
  = if ascii_dec c c' then String.prefix n t else false.
Proof. reflexivity. Qed.

Lemma contains_RWE (t : string) :
  Py.contains "RWE" t = true -> Py.contains "RW" t = true.
Proof.
  induction t as [| c t IH]; [discriminate |].
  change (Py.contains "RWE" (String c t))
    with (String.prefix "RWE" (String c t) || Py.contains "RWE" t).
  change (Py.contains "RW" (String c t))
    with (String.prefix "RW" (String c t) || Py.contains "RW" t).
  intros H. apply orb_true_iff in H as [H | H]; apply orb_true_iff.
  - left. revert H. rewrite !prefix_cons.
    destruct (ascii_dec "R" c); [| discriminate].
    destruct t as [| c' t]; [discriminate |]. rewrite !prefix_cons.
    destruct (ascii_dec "W" c'); [| discriminate].
    intros _. destruct t; reflexivity.
  - right. apply IH, H.
Qed.

Lemma manual_checks_answered p results s o1 w3 o2 w4 o3 w5 :
  let l := ["readelf"; "-l"; path_str os p] in
  let h := ["readelf"; "-h"; path_str os p] in
  let n := ["nm"; path_str os p] in
  check_output os l (world s) = (Returned o1, w3) ->
  check_output os h w3 = (Returned o2, w4) ->
  check_output os n w4 = (Returned o3, w5) ->
  manual_checks os p results s
  = (Returned (Py.join_nl (results ++
       ["NX (No Execute): " +:+
          enabled (Py.contains "GNU_STACK" o1 && Py.contains "RW" o1);
        "PIE: " +:+
          enabled (Py.contains "DYN (Shared object file)" o2
                   || Py.contains "DYN (Position-Independent Executable file)" o2);
        "Stack Canary: " +:+ enabled (Py.contains "__stack_chk_fail" o3)])),
     ran (ran (ran s l w3) h w4) n w5).
Proof.
  intros l h n H1 H2 H3.
  unfold manual_checks, try_block, block_bind.
  rewrite (run_check_output os _ _ s _ _ H1). simpl.
  rewrite (run_check_output os _ _ (ran s l w3) _ _ H2). simpl.
  rewrite (run_check_output os _ _ (ran (ran s l w3) h w4) _ _ H3). simpl.
  rewrite <- !app_assoc. reflexivity.
Qed.

(** X11.  The manual check for NX looks for ["RW"] anywhere in the output
    of [readelf -l]: a program whose [GNU_STACK] segment is flagged [RWE],
    an executable stack, is reported with NX ["Enabled"]. *)
Theorem check_security_nx_executable_stack p s w1 d w2 o1 w3 o2 w4 o3 w5 :
  path_exists os p (world s) = (Returned true, w1) ->
  check_output os ["checksec"; "--file=" +:+ path_str os p] w1
  = (Raised (FileNotFoundError d), w2) ->
  check_output os ["readelf"; "-l"; path_str os p] w2 = (Returned o1, w3) ->
  check_output os ["readelf"; "-h"; path_str os p] w3 = (Returned o2, w4) ->
  check_output os ["nm"; path_str os p] w4 = (Returned o3, w5) ->
  Py.contains "GNU_STACK" o1 = true ->
  Py.contains "RWE" o1 = true ->
  (check_security os (VStr p) s).1
  = Returned (Py.join_nl
      [security_header os p;
       "NX (No Execute): Enabled";
       "PIE: " +:+
         enabled (Py.contains "DYN (Shared object file)" o2
                  || Py.contains "DYN (Position-Independent Executable file)" o2);
       "Stack Canary: " +:+ enabled (Py.contains "__stack_chk_fail" o3)]).
Proof.
  intros Hx Hc H1 H2 H3 Hg Hr.
  pose proof (check_security_checksec os p s w1 _ w2 Hx Hc) as Hcs.
  simpl in Hcs. rewrite Hcs.
  rewrite (manual_checks_answered p _
             (ran (quiet s w1) ["checksec"; "--file=" +:+ path_str os p] w2)
             _ _ _ _ _ _ H1 H2 H3).
  rewrite Hg, (contains_RWE _ Hr). reflexivity.
Qed.

(** X12.  The [except] clause of the manual checks names two classes only:
    when the first probe raises anything else (a [PermissionError], say),
    [check_security] raises it, no note is returned, and the caller gets
    the dispatcher's error block. *)
Theorem check_security_probe_raises p s w1 d w2 e w3
    (arguments : gmap string value) :
  path_exists os p (world s) = (Returned true, w1) ->
  check_output os ["checksec"; "--file=" +:+ path_str os p] w1
  = (Raised (FileNotFoundError d), w2) ->
  check_output os ["readelf"; "-l"; path_str os p] w2 = (Raised e, w3) ->
  probe_failed e = false ->
  arguments !! "file_path" = Some (VStr p) ->
  let s' := ran (ran (quiet s w1) ["checksec"; "--file=" +:+ path_str os p] w2)
              ["readelf"; "-l"; path_str os p] w3 in
  check_security os (VStr p) s = (Raised e, s')
  /\ call_tool os "check_security" arguments s
     = (Returned [block ("Error executing check_security: " +:+ str_exn e)], s').
Proof.
  intros Hx Hc H1 He Hfp s'.
  pose proof (check_security_checksec os p s w1 _ w2 Hx Hc) as Hcs.
  simpl in Hcs.
  assert (check_security os (VStr p) s = (Raised e, s')) as Ha.
  { rewrite Hcs. unfold manual_checks, try_block, block_bind.
    rewrite (run_check_output os _ _
               (ran (quiet s w1) ["checksec"; "--file=" +:+ path_str os p] w2)
               _ _ H1), He.
    reflexivity. }
  split; [exact Ha |].
  assert (dispatch os "check_security" arguments s = (Raised e, s')) as D.
  { change (invoke os CheckSecurity arguments s = (Raised e, s')).
    rewrite (invoke_file_path os CheckSecurity _ _ Hfp). exact Ha. }
  rewrite (call_tool_raised os _ _ _ _ _ D). reflexivity.
Qed.

End ManualChecksMore.

Lemma check_security_nx_executable_stack_witness :
  (check_security Demo2.exec_stack (VStr "/bin/ls") Demo.start).1
  = Returned (Py.join_nl ["=== Security Features: ls ===" +:+ Py.nl;
                          "NX (No Execute): Enabled";
                          "PIE: Disabled";
                          "Stack Canary: Disabled"]).
Proof.
  rewrite (check_security_nx_executable_stack Demo2.exec_stack "/bin/ls"
             Demo.start tt "[Errno 2] No such file or directory: 'checksec'" tt
             _ tt _ tt _ tt eq_refl eq_refl eq_refl eq_refl eq_refl
             eq_refl eq_refl).
  vm_compute. reflexivity.
Defined.

Lemma check_security_probe_raises_witness :
  call_tool Demo2.readelf_denied "check_security"
    {[ "file_path" := VStr "/bin/ls" ]} Demo.start
  = (Returned [block "Error executing check_security: [Errno 13] Permission denied: 'readelf'"],
     {| world := tt;
        spawned := [["checksec"; "--file=/bin/ls"]; ["readelf"; "-l"; "/bin/ls"]] |}).
Proof.
  apply (check_security_probe_raises Demo2.readelf_denied "/bin/ls" Demo.start
           tt "[Errno 2] No such file or directory: 'checksec'" tt
           (OtherException "[Errno 13] Permission denied: 'readelf'") tt
           {[ "file_path" := VStr "/bin/ls" ]}); reflexivity.
Defined.

(** ** Looking for Ghidra *)

Section FindGhidra.

Context {W : Type} (os : Host W).

Implicit Types (s : state (W := W)) (pr : Process).

Lemma first_existing_sound (paths : list string) s path s' :
  first_existing os paths s = (Returned (Some path), s') ->
  path ∈ paths /\ path <> "" /\ spawned s' = spawned s.
Proof.
  revert s. induction paths as [| q rest IH]; intros s; [discriminate |].
  simpl. case_bool_decide as Hq.
  - intros H. destruct (IH _ H) as (Hin & Hne & Hsp).
    split; [by apply list_elem_of_further | done].
  - unfold bind, exists_, lift.
    destruct (path_exists os q (world s)) as [[[|] | e] w]; simpl.
    + unfold ret. intros [= <- <-]. split; [apply list_elem_of_here | done].
    + intros H. destruct (IH _ H) as (Hin & Hne & Hsp).
      split; [by apply list_elem_of_further | done].
    + discriminate.
Qed.

(** X13.  A path returned by [_find_ghidra] is one of the four candidates
    and is not empty (an unset [GHIDRA_INSTALL_DIR] is never the answer);
    the search starts no command. *)
Theorem find_ghidra_sound pr s path s' :
  _find_ghidra os pr s = (Returned (Some path), s') ->
  path ∈ common_paths pr /\ path <> "" /\ spawned s' = spawned s.
Proof. apply first_existing_sound. Qed.

(** X14.  The conventional locations come before the environment: when
    [/opt/ghidra] exists it is the answer, whatever [GHIDRA_INSTALL_DIR]
    names, and nothing else is looked at. *)
Theorem find_ghidra_opt_first pr s w :
  path_exists os "/opt/ghidra" (world s) = (Returned true, w) ->
  _find_ghidra os pr s = (Returned (Some "/opt/ghidra"), quiet s w).
Proof.
  intros H. unfold _find_ghidra, common_paths. simpl.
  unfold bind. rewrite (exists_eq os _ _ _ _ H). reflexivity.
Qed.

(** X15.  [GHIDRA_INSTALL_DIR] is consulted last: after the three
    conventional locations were found missing, the answer is the directory
    the variable names when that directory exists, and [None] when it does
    not; when the variable is unset or empty the answer is [None] and the
    file system is not asked a fourth time. *)
Theorem find_ghidra_variable_last pr s w1 w2 w3 :
  home_ghidra pr <> "" ->
  path_exists os "/opt/ghidra" (world s) = (Returned false, w1) ->
  path_exists os "/usr/local/ghidra" w1 = (Returned false, w2) ->
  path_exists os (home_ghidra pr) w2 = (Returned false, w3) ->
  (environ_get pr "GHIDRA_INSTALL_DIR" "" = "" ->
     _find_ghidra os pr s = (Returned None, quiet s w3))
  /\ (forall dir found w4,
        environ pr !! "GHIDRA_INSTALL_DIR" = Some dir -> dir <> "" ->
        path_exists os dir w3 = (Returned found, w4) ->
        _find_ghidra os pr s
        = (Returned (if found then Some dir else None), quiet s w4)).
Proof.
  intros Hh H1 H2 H3.
  assert (_find_ghidra os pr s
          = first_existing os [environ_get pr "GHIDRA_INSTALL_DIR" ""]
              (quiet s w3)) as Hthree.
  { unfold _find_ghidra, common_paths. simpl.
    unfold bind at 1. rewrite (exists_eq os _ _ _ _ H1). simpl.
    unfold bind at 1. rewrite (exists_eq os _ (quiet s w1) _ _ H2). simpl.
    rewrite bool_decide_eq_false_2 by exact Hh.
    unfold bind at 1. rewrite (exists_eq os _ (quiet (quiet s w1) w2) _ _ H3).
    reflexivity. }
  split.
  - intros He. rewrite Hthree, He. reflexivity.
  - intros dir found w4 Hd Hne Hx. rewrite Hthree.
    unfold environ_get. rewrite Hd. simpl.
    rewrite bool_decide_eq_false_2 by exact Hne.
    unfold bind. rewrite (exists_eq os _ (quiet s w3) _ _ Hx).
    destruct found; reflexivity.
Qed.

End FindGhidra.

Lemma find_ghidra_sound_witness :
  "/srv/ghidra" ∈ common_paths Demo2.with_variable.
Proof.
  apply (find_ghidra_sound (Demo.host Demo2.custom_install Demo.no_tools)
           Demo2.with_variable Demo.start "/srv/ghidra" Demo.start).
  reflexivity.
Defined.

Lemma find_ghidra_opt_first_witness :
  _find_ghidra (Demo.host Demo2.installs Demo.no_tools) Demo2.with_variable
    Demo.start
  = (Returned (Some "/opt/ghidra"), Demo.start).
Proof.
  apply (find_ghidra_opt_first (Demo.host Demo2.installs Demo.no_tools)
           Demo2.with_variable Demo.start tt).
  reflexivity.
Defined.

Lemma find_ghidra_variable_last_witness :
  _find_ghidra (Demo.host Demo2.custom_install Demo.no_tools)
    Demo2.with_variable Demo.start
  = (Returned (Some "/srv/ghidra"), Demo.start)
  /\ _find_ghidra (Demo.host Demo2.custom_install Demo.no_tools)
       Demo2.without_variable Demo.start
     = (Returned None, Demo.start).
Proof.
  split.
  - apply (find_ghidra_variable_last
             (Demo.host Demo2.custom_install Demo.no_tools)
             Demo2.with_variable Demo.start tt tt tt)
      with (found := true) (w4 := tt);
      try reflexivity; discriminate.
  - apply (find_ghidra_variable_last
             (Demo.host Demo2.custom_install Demo.no_tools)
             Demo2.without_variable Demo.start tt tt tt);
      try reflexivity; discriminate.
Defined.

(** ** The minimum length on the command line *)

Section MinLengthArgument.

Context {W : Type} (os : Host W).


End MinLengthArgument.

